(** * cs.money parser: a shallow embedding of
      [price_monitoring/parsers/csmoney/parser/parser.py]

    The module fetches a cs.money page, finds the JSON snapshot embedded in
    its [__NEXT_DATA__] script, turns every raw skin record into one or more
    [CsmoneyItem]s and hands one [CsmoneyItemPack] to a result queue, retrying
    a bounded number of times.

    Python values are embedded as the inductive [json] (what [json.loads]
    produces, which is also what the functions below receive), exceptions as
    the [Raise] branch of [result], and the loop of [CsmoneyParserImpl.parse]
    as a function of the outcomes of its successive [_request] calls. *)

From Stdlib Require Import ZArith List String Ascii Bool Lia.
From Stdlib Require Import Floats.
Import ListNotations.

#[local] Set Warnings "-inexact-float".

Local Open Scope string_scope.
Local Open Scope list_scope.
Local Open Scope Z_scope.

(* ===================================================================== *)
(** ** Exceptions and the error monad                                     *)
(* ===================================================================== *)

(** The exception classes that the module raises or lets through.
    [OutOfRangeError] stands for what [datetime.fromtimestamp] raises on an
    instant outside the years 1..9999 ([ValueError], [OverflowError] or
    [OSError], depending on magnitude and platform); it is only ever raised
    outside the [try] of [parse], so its exact class decides nothing here. *)
Inductive exn : Type :=
| KeyError
| ValueError
| TypeError
| AttributeError
| OutOfRangeError
| MaxAttemptsReachedError.

Definition exn_eqb (a b : exn) : bool :=
  match a, b with
  | KeyError, KeyError | ValueError, ValueError | TypeError, TypeError
  | AttributeError, AttributeError | OutOfRangeError, OutOfRangeError
  | MaxAttemptsReachedError, MaxAttemptsReachedError => true
  | _, _ => false
  end.

Inductive result (A : Type) : Type :=
| Ok (a : A)
| Raise (e : exn).

Arguments Ok {A} a.
Arguments Raise {A} e.

Definition bind {A B : Type} (c : result A) (k : A -> result B) : result B :=
  match c with
  | Ok a => k a
  | Raise e => Raise e
  end.

Declare Scope py_scope.
Delimit Scope py_scope with py.
Notation "x <- c ;; k" := (bind c (fun x => k))
  (at level 61, c at next level, right associativity) : py_scope.
Local Open Scope py_scope.

(** [try: c except handled as exc: raise replacement from exc] *)
Definition reraise_as {A : Type} (handled replacement : exn) (c : result A) : result A :=
  match c with
  | Ok a => Ok a
  | Raise e => if exn_eqb e handled then Raise replacement else Raise e
  end.

(* ===================================================================== *)
(** ** Python values                                                      *)
(* ===================================================================== *)

(** The values [json.loads] builds: [None], [bool], [int] (unbounded),
    [float] (binary64), [str], [list] and [dict] with string keys.  A dict is
    kept as its list of bindings; [lookup] reads the first binding of a key. *)
#[local] Unset Elimination Schemes.
Inductive json : Type :=
| JNull
| JBool (b : bool)
| JInt (n : Z)
| JFloat (f : float)
| JStr (s : string)
| JList (l : list json)
| JDict (kvs : list (string * json)).
#[local] Set Elimination Schemes.

Fixpoint lookup (k : string) (kvs : list (string * json)) : option json :=
  match kvs with
  | [] => None
  | (k', v) :: rest => if String.eqb k k' then Some v else lookup k rest
  end.

(** [bool(v)] *)
Definition truthy (v : json) : bool :=
  match v with
  | JNull => false
  | JBool b => b
  | JInt n => negb (n =? 0)
  | JFloat f => negb (PrimFloat.eqb f 0%float)
  | JStr s => negb (String.eqb s "")
  | JList l => match l with [] => false | _ => true end
  | JDict kvs => match kvs with [] => false | _ => true end
  end.

(* ---------- strings ---------- *)

Fixpoint starts_with (p s : string) : bool :=
  match p, s with
  | EmptyString, _ => true
  | String a p', String b s' => Ascii.eqb a b && starts_with p' s'
  | String _ _, EmptyString => false
  end.

Fixpoint drop (n : nat) (s : string) : string :=
  match n, s with
  | O, _ => s
  | S n', String _ s' => drop n' s'
  | S _, EmptyString => EmptyString
  end.

(** [needle in hay] for two [str] *)
Fixpoint str_contains (needle hay : string) : bool :=
  starts_with needle hay
  || match hay with
     | EmptyString => false
     | String _ hay' => str_contains needle hay'
     end.

(** [find_split needle hay]: the text before the first occurrence of
    [needle] in [hay] and the text after it. *)
Fixpoint find_split (needle hay : string) : option (string * string) :=
  if starts_with needle hay then Some (EmptyString, drop (String.length needle) hay)
  else match hay with
       | EmptyString => None
       | String c hay' =>
           match find_split needle hay' with
           | Some (before, after) => Some (String c before, after)
           | None => None
           end
       end.

Definition lower_ascii (c : ascii) : ascii :=
  let n := nat_of_ascii c in
  if (Nat.leb 65 n && Nat.leb n 90)%bool then ascii_of_nat (n + 32) else c.

(** [s.lower()].  A [str] is kept as its UTF-8 bytes and only ASCII letters
    are folded: outside ASCII, [str.lower] produces an ASCII letter only from
    U+212A (to [k]) and U+0130 (to [i] followed by U+0307); no keyword below
    has a [k], and none has an [i] at its end, so neither can complete a
    keyword. *)
Fixpoint lower (s : string) : string :=
  match s with
  | EmptyString => EmptyString
  | String c s' => String (lower_ascii c) (lower s')
  end.

(* ---------- container protocol ---------- *)

(** [key in v] for a [str] key *)
Definition py_contains (key : string) (v : json) : result bool :=
  match v with
  | JDict kvs => Ok (match lookup key kvs with Some _ => true | None => false end)
  | JList l =>
      Ok (existsb (fun x => match x with JStr s => String.eqb key s | _ => false end) l)
  | JStr s => Ok (str_contains key s)
  | JNull | JBool _ | JInt _ | JFloat _ => Raise TypeError
  end.

(** [v[key]] for a [str] key *)
Definition py_getitem (v : json) (key : string) : result json :=
  match v with
  | JDict kvs => match lookup key kvs with Some x => Ok x | None => Raise KeyError end
  | _ => Raise TypeError
  end.

(** [v.get(key, None)] *)
Definition py_get (v : json) (key : string) : result json :=
  match v with
  | JDict kvs => match lookup key kvs with Some x => Ok x | None => Ok JNull end
  | _ => Raise AttributeError
  end.

Fixpoint chars (s : string) : list json :=
  match s with
  | EmptyString => []
  | String c s' => JStr (String c EmptyString) :: chars s'
  end.

Fixpoint keys (seen : list string) (kvs : list (string * json)) : list json :=
  match kvs with
  | [] => []
  | (k, _) :: rest =>
      if existsb (String.eqb k) seen then keys seen rest
      else JStr k :: keys (k :: seen) rest
  end.

(** [iter(v)], as the [for] statement consumes it *)
Definition py_iter (v : json) : result (list json) :=
  match v with
  | JList l => Ok l
  | JDict kvs => Ok (keys [] kvs)
  | JStr s => Ok (chars s)
  | JNull | JBool _ | JInt _ | JFloat _ => Raise TypeError
  end.

(** [a and b] on two tests, the second evaluated only if the first holds *)
Definition py_and (a b : result bool) : result bool :=
  x <- a ;; if x then b else Ok false.

Fixpoint mapM {A B : Type} (f : A -> result B) (l : list A) : result (list B) :=
  match l with
  | [] => Ok []
  | a :: rest =>
      b <- f a ;;
      bs <- mapM f rest ;;
      Ok (b :: bs)
  end.

(* ===================================================================== *)
(** ** Module constants                                                   *)
(* ===================================================================== *)

Definition _MAX_ATTEMPTS_DEFAULT : Z := 300.

Definition dquote : string := String (ascii_of_nat 34) EmptyString.

(** The literal head of [_NEXT_DATA_PATTERN]:
    [<script id="__NEXT_DATA__" type="application/json"] *)
Definition _NEXT_DATA_OPEN : string :=
  ("<script id=" ++ dquote ++ "__NEXT_DATA__" ++ dquote
   ++ " type=" ++ dquote ++ "application/json" ++ dquote)%string.

Definition _NEXT_DATA_CLOSE : string := "</script>".

Definition _CLOUDFLARE_KEYWORDS : list string :=
  [ "just a moment";
    "cf-mitigated";
    "cf-browser-verification";
    "cf-chl" ].

(* ===================================================================== *)
(** ** Timestamps                                                         *)
(* ===================================================================== *)

(** An aware [datetime] in UTC, kept as the POSIX timestamp (seconds, a
    binary64 float) it was built from by [datetime.fromtimestamp(ts, UTC)]. *)
Record datetime : Type := { timestamp : float }.

(** [float(n)], exact for [|n| < 2^53] *)
Definition float_of_Z (n : Z) : float :=
  if n <? 0 then PrimFloat.opp (PrimFloat.of_uint63 (Uint63.of_Z (- n)))
  else PrimFloat.of_uint63 (Uint63.of_Z n).

(** First and last millisecond of the years 1..9999. *)
Definition _MIN_UNIX_MS : Z := -62135596800000.
Definition _MAX_UNIX_MS : Z := 253402300799999.

(** [datetime.fromtimestamp(unix / 1000, UTC)].  [/] is true division: an
    [int] or [bool] is divided as the float it converts to, a [float] as it
    is, anything else raises [TypeError].  [fromtimestamp] accepts the
    instants of the years 1..9999; for an [int] that is the range of
    milliseconds above (and the conversion to float is exact there), and for
    a [float] it is a test on the quotient. *)
Definition fromtimestamp_div_1000 (unix : json) : result datetime :=
  match unix with
  | JInt n =>
      if (_MIN_UNIX_MS <=? n) && (n <=? _MAX_UNIX_MS)
      then Ok {| timestamp := PrimFloat.div (float_of_Z n) 1000 |}
      else Raise OutOfRangeError
  | JBool b => Ok {| timestamp := PrimFloat.div (float_of_Z (Z.b2z b)) 1000 |}
  | JFloat f =>
      let x := PrimFloat.div f 1000 in
      if (PrimFloat.leb (-62135596800) x && PrimFloat.ltb x 253402300800)%bool
      then Ok {| timestamp := x |}
      else Raise OutOfRangeError
  | JNull | JStr _ | JList _ | JDict _ => Raise TypeError
  end.

(** [def _csmoney_unix_to_datetime(unix: int | None) -> datetime | None] *)
Definition _csmoney_unix_to_datetime (unix : json) : result (option datetime) :=
  if truthy unix then
    d <- fromtimestamp_div_1000 unix ;;
    Ok (Some d)
  else Ok None.

(* ===================================================================== *)
(** ** Challenge classifier                                               *)
(* ===================================================================== *)

(** [def _is_cloudflare_challenge(html: str) -> bool] *)
Definition _is_cloudflare_challenge (html : string) : bool :=
  let lowered := lower html in
  existsb (fun keyword => str_contains keyword lowered) _CLOUDFLARE_KEYWORDS.

(* ===================================================================== *)
(** ** Snapshot extractor                                                 *)
(* ===================================================================== *)

(** [ [^>]* ]: the longest run of characters other than [>] is skipped. *)
Fixpoint skip_not_gt (s : string) : string :=
  match s with
  | String c s' => if Ascii.eqb c ">" then s else skip_not_gt s'
  | EmptyString => EmptyString
  end.

(** One attempt of [_NEXT_DATA_PATTERN] at the start of [s]: the literal
    head, [ [^>]* ] (greedy, and whatever it gives back is not a [>], so only
    its longest run can be followed by [>]), [>], then [.*?] (lazy, with
    DOTALL) up to the first [</script>].  The result is the group [data]. *)
Definition match_next_data_at (s : string) : option string :=
  if starts_with _NEXT_DATA_OPEN s then
    match skip_not_gt (drop (String.length _NEXT_DATA_OPEN) s) with
    | String _ after_gt =>
        match find_split _NEXT_DATA_CLOSE after_gt with
        | Some (data, _) => Some data
        | None => None
        end
    | EmptyString => None
    end
  else None.

(** [_NEXT_DATA_PATTERN.search(html)]: the match at the leftmost position
    that has one. *)
Fixpoint search_next_data (html : string) : option string :=
  match match_next_data_at html with
  | Some data => Some data
  | None =>
      match html with
      | EmptyString => None
      | String _ rest => search_next_data rest
      end
  end.

(* ===================================================================== *)
(** ** Extraction, transformation and the retry loop                      *)
(* ===================================================================== *)

Section Parser.

(** What the module imports and this development does not unfold. *)

(** [json.loads]; it raises [ValueError] ([JSONDecodeError]) on a payload
    that is not JSON. *)
Variable json_loads : string -> result json.

(** [CsmoneyItemCategory], an enumeration looked up by value:
    [CsmoneyItemCategory(v)] is the member whose value is [v], and raises
    [ValueError] when there is none. *)
Variable category : Type.
Variable category_of_value : json -> option category.

(** [_name_patcher.patch_market_name], a pure function on names. *)
Variable patch_market_name : json -> json.

(** The built-in [str]. *)
Variable py_str : json -> string.

Definition CsmoneyItemCategory (v : json) : result category :=
  match category_of_value v with
  | Some c => Ok c
  | None => Raise ValueError
  end.

Record CsmoneyItem : Type := {
  name : json;
  price : json;
  asset_id : string;
  name_id : json;
  type_ : category;
  float_ : json;
  unlock_timestamp : option datetime;
  overpay_float : json
}.

Record CsmoneyItemPack : Type := { items : list CsmoneyItem }.

(** [def _extract_next_data(html: str) -> dict].  [Pattern.search] raises
    [TypeError] on anything that is not a [str]. *)
Definition _extract_next_data (html : json) : result json :=
  match html with
  | JStr text =>
      match search_next_data text with
      | None => Raise ValueError
      | Some data => json_loads data
      end
  | _ => Raise TypeError
  end.

(** [def _extract_skins(data: dict) -> list[dict]] *)
Definition _extract_skins (data : json) : result (list json) :=
  skins_info <-
    reraise_as KeyError ValueError
      (props <- py_getitem data "props" ;;
       page_props <- py_getitem props "pageProps" ;;
       bot_init <- py_getitem page_props "botInitData" ;;
       py_getitem bot_init "skinsInfo") ;;
  skins <- py_get skins_info "skins" ;;
  match skins with
  | JList l => Ok l
  | _ => Ok []
  end.

(** The [CsmoneyItem(...)] built for one entry of [stackItems]; the keyword
    arguments are evaluated in the order they are written. *)
Definition stack_sibling (json_item : json) (name : json) (stack_item : json)
  : result CsmoneyItem :=
  price <- py_getitem json_item "price" ;;
  id <- py_getitem stack_item "id" ;;
  name_id <- py_getitem json_item "nameId" ;;
  code <- py_getitem json_item "type" ;;
  type_ <- CsmoneyItemCategory code ;;
  float_ <- py_get stack_item "float" ;;
  trade_lock <- py_getitem stack_item "tradeLock" ;;
  unlock_timestamp <- _csmoney_unix_to_datetime trade_lock ;;
  Ok {| name := name; price := price; asset_id := py_str id; name_id := name_id;
        type_ := type_; float_ := float_; unlock_timestamp := unlock_timestamp;
        overpay_float := JNull |}.

(** [def _create_items(json_item) -> list[CsmoneyItem]] *)
Definition _create_items (json_item : json) : result (list CsmoneyItem) :=
  has_name <- py_contains "fullName" json_item ;;
  if negb has_name then Ok []
  else
    full_name <- py_getitem json_item "fullName" ;;
    let name := patch_market_name full_name in
    overpay <- py_get json_item "overpay" ;;
    overpay_float <- (if truthy overpay then py_get overpay "float" else Ok JNull) ;;
    price <- py_getitem json_item "price" ;;
    asset <- py_getitem json_item "assetId" ;;
    name_id <- py_getitem json_item "nameId" ;;
    code <- py_getitem json_item "type" ;;
    type_ <- CsmoneyItemCategory code ;;
    float_ <- py_get json_item "float" ;;
    trade_lock <- py_get json_item "tradeLock" ;;
    unlock_timestamp <- _csmoney_unix_to_datetime trade_lock ;;
    let first :=
      {| name := name; price := price; asset_id := py_str asset; name_id := name_id;
         type_ := type_; float_ := float_; unlock_timestamp := unlock_timestamp;
         overpay_float := overpay_float |} in
    is_stack <-
      py_and (py_contains "stackSize" json_item)
        (py_and (py_contains "stackId" json_item)
                (py_contains "stackItems" json_item)) ;;
    if is_stack then
      stack_items <- py_getitem json_item "stackItems" ;;
      entries <- py_iter stack_items ;;
      siblings <- mapM (stack_sibling json_item name) entries ;;
      Ok (first :: siblings)
    else Ok [first].

(** The two nested [for] loops of [_process_items]: every item of every
    record is appended to [pack.items]. *)
Fixpoint fill_pack (items_data : list json) (pack_items : list CsmoneyItem)
  : result (list CsmoneyItem) :=
  match items_data with
  | [] => Ok pack_items
  | json_item :: rest =>
      created <- _create_items json_item ;;
      fill_pack rest (pack_items ++ created)
  end.

(** The result queue: [put_raises pack] is the exception [put] raises on
    [pack], if any; [queue] is the log of the packs [put] was called with. *)
Variable put_raises : CsmoneyItemPack -> option exn.

Definition put (pack : CsmoneyItemPack) (queue : list CsmoneyItemPack)
  : result unit * list CsmoneyItemPack :=
  (match put_raises pack with Some e => Raise e | None => Ok tt end, queue ++ [pack]).

(** [async def _process_items(items_data, result_queue) -> None] *)
Definition _process_items (items_data : list json) (queue : list CsmoneyItemPack)
  : result unit * list CsmoneyItemPack :=
  match fill_pack items_data [] with
  | Raise e => (Raise e, queue)
  | Ok pack_items => put {| items := pack_items |} queue
  end.

(** [request k] is what the [k]-th awaited [_request(session, url)] gives:
    the page text, [None], or an exception its decorator let through. *)
Variable request : nat -> result json.
Variable max_attempts : Z.

(** How one call of [parse] ended: what it returned or raised, the log of
    the queue, the number of [_request] calls made, and the last value of
    [failed_attempts]. *)
Record run : Type := {
  outcome : result unit;
  puts : list CsmoneyItemPack;
  requests : nat;
  failed : Z
}.

(** The statement after the loop. *)
Definition after_loop (queue : list CsmoneyItemPack) (calls : nat) (failed_attempts : Z)
  : run :=
  {| outcome := if failed_attempts >? max_attempts then Raise MaxAttemptsReachedError
                else Ok tt;
     puts := queue; requests := calls; failed := failed_attempts |}.

Definition raised (e : exn) (queue : list CsmoneyItemPack) (calls : nat)
  (failed_attempts : Z) : run :=
  {| outcome := Raise e; puts := queue; requests := calls; failed := failed_attempts |}.

(** The [while] loop of [parse], from the state it is in after [calls]
    requests.  [fuel] bounds the iterations; [None] is a loop cut short by
    it, which [parse] below never is. *)
Fixpoint parse_loop (fuel : nat) (queue : list CsmoneyItemPack) (calls : nat)
  (failed_attempts : Z) : option run :=
  if failed_attempts <=? max_attempts then
    match fuel with
    | O => None
    | S fuel' =>
        match request calls with
        | Raise e => Some (raised e queue (S calls) failed_attempts)
        | Ok html =>
            if negb (truthy html) then
              parse_loop fuel' queue (S calls) (failed_attempts + 1)
            else
              match (next_data <- _extract_next_data html ;;
                     _extract_skins next_data) with
              | Raise ValueError =>
                  parse_loop fuel' queue (S calls) (failed_attempts + 1)
              | Raise e => Some (raised e queue (S calls) failed_attempts)
              | Ok skins_data =>
                  match _process_items skins_data queue with
                  | (Raise e, queue') => Some (raised e queue' (S calls) failed_attempts)
                  | (Ok _, queue') => Some (after_loop queue' (S calls) failed_attempts)
                  end
              end
        end
    end
  else Some (after_loop queue calls failed_attempts).

(** [async def parse(self, url, result_queue, max_attempts)].  Every
    iteration that does not leave the loop adds one to [failed_attempts],
    so [max_attempts + 1] iterations are enough. *)
Definition parse : option run :=
  parse_loop (Z.to_nat (max_attempts + 1)) [] 0 0.

End Parser.

Arguments name {category} _.
Arguments price {category} _.
Arguments asset_id {category} _.
Arguments name_id {category} _.
Arguments type_ {category} _.
Arguments float_ {category} _.
Arguments unlock_timestamp {category} _.
Arguments overpay_float {category} _.
Arguments items {category} _.
Arguments outcome {category} _.
Arguments puts {category} _.
Arguments requests {category} _.
Arguments failed {category} _.

(* ===================================================================== *)
(** ** The fetcher                                                        *)
(* ===================================================================== *)

(** What one GET comes to: an [aiohttp] error, or the text of the body. *)
Inductive response : Type :=
| TransportError
| Body (text : string).

(** Modelled from the spec: the decorator [proxy_http.decorators.catch_aiohttp]
    is not part of the sources at hand; by the specification it logs and
    swallows a transport-level exception, so that the call gives [None].

    [async def _request(session, url) -> str | None].  The error of
    [raise_for_status] on a non-success status is not a case here: whether
    the decorator swallows it is not settled by the specification, and the
    loop is stated over any outcome of the call, an exception included. *)
Definition _request (r : response) : result json :=
  match r with
  | TransportError => Ok JNull
  | Body text => if _is_cloudflare_challenge text then Ok JNull else Ok (JStr text)
  end.

(* ===================================================================== *)
(** ** The RabbitMQ connector ([common/rabbitmq_connector.py])            *)
(* ===================================================================== *)

Module Rabbitmq.

Definition _DEFAULT_MAX_RETRIES : Z := 5.
Definition _DEFAULT_RETRY_DELAY : float := 2.

Section Connect.

(** Exception objects, and what [await client.connect()] returns. *)
Variable exc : Type.
Variable connection : Type.

(** [isinstance(e, (AMQPConnectionError, OSError))] *)
Variable caught : exc -> bool.

(** [int(port)]: the number, or the exception [int] raises on the text. *)
Variable int_port : exc + Z.

(** [client_connect k port]: what [await client.connect()] comes to for the
    [k]-th client built, [RabbitMQClient(host=host, port=port, ...)].  The
    constructor, the two log calls and [asyncio.sleep(retry_delay)] are
    taken to return. *)
Variable client_connect : nat -> Z -> exc + connection.

Variable max_retries : Z.

(** How one call of [connect] ended: what it returned or raised, the number
    of clients it built and connected, and the number of
    [asyncio.sleep(retry_delay)] it awaited. *)
Record connect_run : Type := {
  ended : exc + connection;
  connects : nat;
  sleeps : nat
}.

(** The [while True] of [connect], from the state it is in after [calls]
    clients.  [fuel] bounds the iterations; [None] is a loop cut short by
    it, which [connect] below never is. *)
Fixpoint connect_loop (fuel : nat) (attempt : Z) (calls slept : nat)
  : option connect_run :=
  match fuel with
  | O => None
  | S fuel' =>
      match int_port with
      | inl e => Some {| ended := inl e; connects := calls; sleeps := slept |}
      | inr port =>
          match client_connect calls port with
          | inr c => Some {| ended := inr c; connects := S calls; sleeps := slept |}
          | inl e =>
              if caught e then
                let attempt := attempt + 1 in
                if attempt >? max_retries then
                  Some {| ended := inl e; connects := S calls; sleeps := slept |}
                else connect_loop fuel' attempt (S calls) (S slept)
              else Some {| ended := inl e; connects := S calls; sleeps := slept |}
          end
      end
  end.

(** [async def connect(host, port, login, password, connection_name,
    max_retries, retry_delay)].  An iteration that goes round again has
    added one to [attempt] and found it at most [max_retries], so
    [max_retries + 1] iterations are enough. *)
Definition connect : option connect_run :=
  connect_loop (S (Z.to_nat max_retries)) 0 0 0.

End Connect.

Arguments ended {exc connection} _.
Arguments connects {exc connection} _.
Arguments sleeps {exc connection} _.

End Rabbitmq.

(* ===================================================================== *)
(** ** A sample environment                                               *)
(* ===================================================================== *)

(** Concrete stand-ins for the imported functions, to run the model on the
    inputs of the test suite.  No theorem below depends on them; they only
    instantiate the general statements. *)
Module Sample.

(** An enumeration with the values 1..13. *)
Definition category : Type := Z.

Definition category_of_value (v : json) : option category :=
  match v with
  | JInt n => if (1 <=? n) && (n <=? 13) then Some n else None
  | _ => None
  end.

Definition patch_market_name (v : json) : json := v.

Definition digit (n : Z) : string := String (ascii_of_nat (48 + Z.to_nat n)) EmptyString.

Fixpoint decimal (fuel : nat) (n : Z) : string :=
  match fuel with
  | O => EmptyString
  | S fuel' => if n <? 10 then digit n else (decimal fuel' (n / 10) ++ digit (n mod 10))%string
  end.

(** [str] of an [int], of a [str] and of [None]. *)
Definition py_str (v : json) : string :=
  match v with
  | JInt n => if n <? 0 then ("-" ++ decimal 40 (- n))%string else decimal 40 n
  | JStr s => s
  | _ => "None"
  end.

Definition put_raises (pack : CsmoneyItemPack category) : option exn := None.

(** The record of [_build_payload] in [tests/parsers/csmoney/test_parser_impl.py]. *)
Definition redline : json :=
  JDict [ ("fullName", JStr "AK-47 | Redline (Field-Tested)");
          ("price", JFloat 12.34);
          ("assetId", JInt 123);
          ("nameId", JInt 456);
          ("type", JInt 3) ].

Definition redline_item : CsmoneyItem category :=
  {| name := JStr "AK-47 | Redline (Field-Tested)"; price := JFloat 12.34;
     asset_id := "123"; name_id := JInt 456; type_ := 3; float_ := JNull;
     unlock_timestamp := None; overpay_float := JNull |}.

(** The same record with a category code that no member has. *)
Definition redline_999_fields : list (string * json) :=
  [ ("fullName", JStr "AK-47 | Redline (Field-Tested)");
    ("price", JFloat 12.34);
    ("assetId", JInt 123);
    ("nameId", JInt 456);
    ("type", JInt 999) ].

(** A record without [fullName], with that category code. *)
Definition nameless_999_fields : list (string * json) :=
  [ ("price", JFloat 12.34);
    ("assetId", JInt 123);
    ("nameId", JInt 456);
    ("type", JInt 999) ].

(** A grouped record in the shape of the test data of
    [test_create_items_with_stack_and_tradelock]: one entry in [stackItems]. *)
Definition bayonet_entry : json :=
  JDict [ ("id", JInt 24902572721);
          ("float", JStr "0.06806051731109601");
          ("tradeLock", JInt 1645430400000) ].

Definition bayonet_fields : list (string * json) :=
  [ ("fullName", JStr "M9 Bayonet | Doppler (Factory New)");
    ("price", JFloat 11592.8);
    ("assetId", JInt 24899230485);
    ("nameId", JInt 15840);
    ("type", JInt 2);
    ("float", JStr "0.056123819202184");
    ("tradeLock", JInt 1645430400000);
    ("stackSize", JInt 2);
    ("stackId", JStr "15840-0");
    ("stackItems", JList [bayonet_entry]) ].

Definition bayonet_item : CsmoneyItem category :=
  {| name := JStr "M9 Bayonet | Doppler (Factory New)"; price := JFloat 11592.8;
     asset_id := "24899230485"; name_id := JInt 15840; type_ := 2;
     float_ := JStr "0.056123819202184";
     unlock_timestamp := Some {| timestamp := 1645430400 |};
     overpay_float := JNull |}.

Definition bayonet_entry_item : CsmoneyItem category :=
  {| name := JStr "M9 Bayonet | Doppler (Factory New)"; price := JFloat 11592.8;
     asset_id := "24902572721"; name_id := JInt 15840; type_ := 2;
     float_ := JStr "0.06806051731109601";
     unlock_timestamp := Some {| timestamp := 1645430400 |};
     overpay_float := JNull |}.

(** A grouped record without [fullName]. *)
Definition nameless_stack_fields : list (string * json) :=
  [ ("price", JFloat 11592.8);
    ("assetId", JInt 24899230485);
    ("nameId", JInt 15840);
    ("type", JInt 2);
    ("stackSize", JInt 2);
    ("stackId", JStr "15840-0");
    ("stackItems", JList [bayonet_entry]) ].

(** A grouped record without [tradeLock], whose one entry has none either. *)
Definition gloves_entry : json :=
  JDict [ ("id", JInt 24571330159); ("float", JStr "0.067453943192958") ].

Definition gloves_fields : list (string * json) :=
  [ ("fullName", JStr "Sport Gloves | Vice (Factory New)");
    ("price", JFloat 35718.7);
    ("assetId", JInt 24491496626);
    ("nameId", JInt 29570);
    ("type", JInt 13);
    ("float", JStr "0.065496817231178");
    ("stackSize", JInt 2);
    ("stackId", JStr "29570-0");
    ("stackItems", JList [gloves_entry]) ].

Definition gloves_item : CsmoneyItem category :=
  {| name := JStr "Sport Gloves | Vice (Factory New)"; price := JFloat 35718.7;
     asset_id := "24491496626"; name_id := JInt 29570; type_ := 13;
     float_ := JStr "0.065496817231178"; unlock_timestamp := None;
     overpay_float := JNull |}.

Definition page_of (skins : json) : json :=
  JDict [("props", JDict [("pageProps", JDict [("botInitData",
           JDict [("skinsInfo", JDict [("skins", skins)])])])])].

Definition payload : json := page_of (JList [redline]).

(** A snapshot without [botInitData]. *)
Definition payload_no_bot : json := JDict [("props", JDict [("pageProps", JDict [])])].

(** A decoder that knows the texts of this table. *)
Definition snapshots : list (string * json) :=
  [ ("{redline}", payload);
    ("{no botInitData}", payload_no_bot);
    ("{redline 999}", page_of (JList [JDict redline_999_fields]));
    ("{nameless 999}", page_of (JList [JDict nameless_999_fields]));
    ("{gloves}", page_of (JList [redline; JDict gloves_fields])) ].

Definition json_loads (text : string) : result json :=
  match lookup text snapshots with
  | Some data => Ok data
  | None => Raise ValueError
  end.

Definition html_of (data : string) : string :=
  ("<html>" ++ _NEXT_DATA_OPEN ++ ">" ++ data ++ "</script></html>")%string.

Definition create_items : json -> result (list (CsmoneyItem category)) :=
  _create_items category category_of_value patch_market_name py_str.

Definition run_parse (request : nat -> result json) (max_attempts : Z)
  : option (run category) :=
  parse json_loads category category_of_value patch_market_name py_str put_raises
    request max_attempts.

(** The [k]-th page is the [k]-th entry of [pages], and [None] after them. *)
Definition serve (pages : list json) (k : nat) : result json :=
  Ok (nth k pages JNull).

(** A broker for [Rabbitmq.connect]: exceptions are [OSError] and
    [KeyboardInterrupt] by name, a connection is the number of the client
    that made it; the first [refused] clients are refused, the next one
    connects. *)
Inductive broker_exc : Type :=
| ConnectionRefused
| Interrupted.

Definition broker_caught (e : broker_exc) : bool :=
  match e with
  | ConnectionRefused => true
  | Interrupted => false
  end.

Definition broker (refused : nat) (k : nat) (port : Z) : broker_exc + nat :=
  if Nat.ltb k refused then inl ConnectionRefused else inr k.

Definition run_connect (refused : nat) (max_retries : Z)
  : option (Rabbitmq.connect_run broker_exc nat) :=
  Rabbitmq.connect broker_exc nat broker_caught (inr 5672) (broker refused) max_retries.

(** A second decoder, for more texts: a snapshot without items, and one
    that is a JSON array. *)
Definition more_snapshots : list (string * json) :=
  [ ("{redline}", payload);
    ("{no items}", page_of JNull);
    ("[]", JList []) ].

Definition json_loads_more (text : string) : result json :=
  match lookup text more_snapshots with
  | Some data => Ok data
  | None => Raise ValueError
  end.

Definition run_parse_more (request : nat -> result json) (max_attempts : Z)
  : option (run category) :=
  parse json_loads_more category category_of_value patch_market_name py_str put_raises
    request max_attempts.

End Sample.

(* ===================================================================== *)
(** ** The vocabulary of the statements                                   *)
(* ===================================================================== *)

Section Vocabulary.

Variable json_loads : string -> result json.
Variable category : Type.
Variable category_of_value : json -> option category.
Variable patch_market_name : json -> json.
Variable py_str : json -> string.
Variable put_raises : CsmoneyItemPack category -> option exn.
Variable request : nat -> result json.
Variable max_attempts : Z.

Local Abbreviation item := (CsmoneyItem category).
Local Abbreviation fill :=
  (fill_pack category category_of_value patch_market_name py_str).

(** [occurs needle hay]: [needle] is a substring of [hay]. *)
Definition occurs (needle hay : string) : Prop :=
  exists before after, hay = (before ++ needle ++ after)%string.

(** [marked html]: some keyword of [_CLOUDFLARE_KEYWORDS] occurs in [html]
    in some letter casing. *)
Definition marked (html : string) : Prop :=
  exists keyword v,
    In keyword _CLOUDFLARE_KEYWORDS /\ lower v = keyword /\ occurs v html.

(** [kvs.get(key, None)] on the bindings of a dict *)
Definition get (kvs : list (string * json)) (key : string) : json :=
  match lookup key kvs with
  | Some v => v
  | None => JNull
  end.

(** The [overpay_float] the code computes for a record. *)
Definition overpay_of (kvs : list (string * json)) : result json :=
  if truthy (get kvs "overpay") then py_get (get kvs "overpay") "float" else Ok JNull.

(** A record is grouped when it has the three stack keys. *)
Definition grouped (kvs : list (string * json)) : Prop :=
  lookup "stackSize" kvs <> None /\ lookup "stackId" kvs <> None
  /\ lookup "stackItems" kvs <> None.

(** The fields of the record itself from which its own item is built. *)
Record parent_fields (kvs : list (string * json)) (first : item) : Prop := {
  pf_name : exists full_name,
      lookup "fullName" kvs = Some full_name /\ name first = patch_market_name full_name;
  pf_price : lookup "price" kvs = Some (price first);
  pf_asset : exists asset, lookup "assetId" kvs = Some asset /\ asset_id first = py_str asset;
  pf_name_id : lookup "nameId" kvs = Some (name_id first);
  pf_type : exists code,
      lookup "type" kvs = Some code /\ category_of_value code = Some (type_ first);
  pf_float : float_ first = get kvs "float";
  pf_lock : _csmoney_unix_to_datetime (get kvs "tradeLock") = Ok (unlock_timestamp first);
  pf_overpay : overpay_of kvs = Ok (overpay_float first)
}.

(** An entry of [stackItems] from which an item can be built. *)
Definition sibling_fields (stack_item : json) : Prop :=
  exists id trade_lock unlock,
    py_getitem stack_item "id" = Ok id
    /\ py_getitem stack_item "tradeLock" = Ok trade_lock
    /\ _csmoney_unix_to_datetime trade_lock = Ok unlock.

(** What the item of an entry of [stackItems] takes from the entry, and what
    from the item of the parent. *)
Definition sibling_of (first : item) (stack_item : json) (it : item) : Prop :=
  name it = name first /\ price it = price first
  /\ name_id it = name_id first /\ type_ it = type_ first
  /\ overpay_float it = JNull
  /\ py_get stack_item "float" = Ok (float_ it)
  /\ (exists trade_lock, py_getitem stack_item "tradeLock" = Ok trade_lock
        /\ _csmoney_unix_to_datetime trade_lock = Ok (unlock_timestamp it))
  /\ (exists id, py_getitem stack_item "id" = Ok id /\ asset_id it = py_str id).

(** The keys [_extract_skins] follows from the snapshot to [skinsInfo]. *)
Definition _SKINS_PATH : list string :=
  ["props"; "pageProps"; "botInitData"; "skinsInfo"].


(** [reaches path v target]: every key of [path] is there, and [target] is
    the value at its end. *)
Fixpoint reaches (path : list string) (v target : json) : Prop :=
  match path with
  | [] => v = target
  | key :: rest =>
      exists kvs v', v = JDict kvs /\ lookup key kvs = Some v' /\ reaches rest v' target
  end.

(** The two calls inside the [try] of [parse]. *)
Definition extract (html : json) : result (list json) :=
  next_data <- _extract_next_data json_loads html ;;
  _extract_skins next_data.

(** The [k]-th request brought a page from which [pack] is built. *)
Definition attempt_succeeds (k : nat) (pack : CsmoneyItemPack category) : Prop :=
  exists html skins_data,
    request k = Ok html /\ truthy html = true
    /\ extract html = Ok skins_data
    /\ fill skins_data [] = Ok (items pack).

(** How a run of the loop that starts after [calls] requests, with [queue]
    as the log so far, can end: without a [put], by an exception, or with
    one [put], made for the last request. *)
Inductive loop_end (queue : list (CsmoneyItemPack category)) (calls : nat)
  (r : run category) : Prop :=
| ended_without_put :
    puts r = queue ->
    (exists e, outcome r = Raise e) ->
    (max_attempts < failed r -> outcome r = Raise MaxAttemptsReachedError) ->
    (forall k pack, (calls <= k < requests r)%nat -> ~ attempt_succeeds k pack) ->
    loop_end queue calls r
| ended_with_put (pack : CsmoneyItemPack category) :
    puts r = queue ++ [pack] ->
    outcome r = match put_raises pack with Some e => Raise e | None => Ok tt end ->
    failed r <= max_attempts ->
    (calls < requests r)%nat ->
    attempt_succeeds (pred (requests r)) pack ->
    (forall k p, (calls <= k < pred (requests r))%nat -> ~ attempt_succeeds k p) ->
    loop_end queue calls r.

(** [has_char c s]: the character [c] is in [s]. *)
Fixpoint has_char (c : ascii) (s : string) : bool :=
  match s with
  | EmptyString => false
  | String x s' => Ascii.eqb c x || has_char c s'
  end.

(** [stops_at_non_dict path v]: following [path] from [v], one comes to a
    value that is not a dict while keys are left to follow. *)
Fixpoint stops_at_non_dict (path : list string) (v : json) : Prop :=
  match path with
  | [] => False
  | key :: rest =>
      match v with
      | JDict kvs =>
          match lookup key kvs with
          | Some v' => stops_at_non_dict rest v'
          | None => False
          end
      | _ => True
      end
  end.

(** The [k]-th request is one the loop counts and goes on from: no content,
    or a page from which nothing can be extracted. *)
Definition soft_failure (k : nat) : Prop :=
  exists html,
    request k = Ok html
    /\ (truthy html = false \/ extract html = Raise ValueError).

(** The items [_create_items] returns for each record, in order. *)
Definition created_lists (records : list json) : result (list (list item)) :=
  mapM (_create_items category category_of_value patch_market_name py_str) records.

End Vocabulary.

(* ===================================================================== *)
(** ** Facts about strings                                                *)
(* ===================================================================== *)

Section StringFacts.

Local Open Scope string_scope.

Lemma starts_with_spec p s :
  starts_with p s = true <-> exists after, s = p ++ after.
Proof.
  revert s. induction p as [|a p IH]; intros s; simpl.
  - split; [intros _; now exists s | reflexivity].
  - destruct s as [|b s].
    + split; [discriminate | intros [after H]; discriminate].
    + rewrite andb_true_iff, Ascii.eqb_eq, IH. split.
      * intros [-> [after ->]]. now exists after.
      * intros [after H]. injection H as -> ->. split; [reflexivity | now exists after].
Qed.

Lemma str_contains_spec needle hay :
  str_contains needle hay = true <-> occurs needle hay.
Proof.
  unfold occurs. induction hay as [|c hay IH].
  - simpl. rewrite orb_false_r, starts_with_spec. split.
    + intros [after H]. now exists "", after.
    + intros [before [after H]]. destruct before; [now exists after | discriminate].
  - cbn [str_contains]. rewrite orb_true_iff, starts_with_spec, IH. split.
    + intros [[after H] | [before [after H]]].
      * now exists "", after.
      * exists (String c before), after. simpl. now rewrite H.
    + intros [before [after H]]. destruct before as [|b before].
      * left. now exists after.
      * right. simpl in H. injection H as _ H. now exists before, after.
Qed.

Lemma lower_app a b : lower (a ++ b) = lower a ++ lower b.
Proof. induction a as [|c a IH]; simpl; [reflexivity | now rewrite IH]. Qed.

Lemma lower_split s : forall a b,
  lower s = a ++ b -> exists a' b', s = a' ++ b' /\ lower a' = a /\ lower b' = b.
Proof.
  induction s as [|c s IH]; intros a b H.
  - destruct a; [| discriminate]. simpl in H. subst b. now exists "", "".
  - destruct a as [|x a].
    + simpl in H. subst b. now exists "", (String c s).
    + simpl in H. injection H as Hx H. destruct (IH _ _ H) as (a' & b' & -> & Ha & Hb).
      exists (String c a'), b'. simpl. now rewrite Hx, Ha, Hb.
Qed.

(** A text has a substring that reads [keyword] once its letters are
    lowered, exactly when its lowered form has [keyword] as a substring. *)
Lemma occurs_lower keyword html :
  occurs keyword (lower html) <-> exists v, lower v = keyword /\ occurs v html.
Proof.
  split.
  - intros (a & b & H). apply lower_split in H as (a' & r & -> & Ha & H).
    apply lower_split in H as (v & b' & -> & Hv & Hb).
    exists v. split; [assumption | now exists a', b'].
  - intros (v & Hv & a & b & ->). exists (lower a), (lower b).
    now rewrite !lower_app, Hv.
Qed.

End StringFacts.

(* ===================================================================== *)
(** ** The challenge classifier                                           *)
(* ===================================================================== *)

(** C9.  The classifier is a total function to [bool]; it answers [true] on
    every text in which one of the four keywords occurs in some letter
    casing, and [false] on every text in which none does. *)
Theorem is_cloudflare_challenge_spec :
  forall html : string,
    (marked html <-> _is_cloudflare_challenge html = true)
    /\ (~ marked html <-> _is_cloudflare_challenge html = false).
Proof.
  intros html.
  assert (H : marked html <-> _is_cloudflare_challenge html = true).
  { unfold marked, _is_cloudflare_challenge. rewrite existsb_exists. split.
    - intros (keyword & v & Hin & Hv & Hocc). exists keyword. split; [assumption |].
      apply str_contains_spec, occurs_lower. now exists v.
    - intros (keyword & Hin & Hc). apply str_contains_spec, occurs_lower in Hc.
      destruct Hc as (v & Hv & Hocc). now exists keyword, v. }
  split; [exact H |].
  rewrite H. destruct (_is_cloudflare_challenge html); split; congruence.
Qed.

(** The three assertions of [test_is_cloudflare_challenge]. *)
Example test_is_cloudflare_challenge :
  _is_cloudflare_challenge "<title>Just a moment...</title>" = true
  /\ _is_cloudflare_challenge "CF-Mitigated" = true
  /\ _is_cloudflare_challenge "<html><body>ok</body></html>" = false.
Proof. repeat split. Qed.

(* ===================================================================== *)
(** ** The item transformer                                               *)
(* ===================================================================== *)

Section TransformerFacts.

Variable category : Type.
Variable category_of_value : json -> option category.
Variable patch_market_name : json -> json.
Variable py_str : json -> string.

Local Abbreviation create_items :=
  (_create_items category category_of_value patch_market_name py_str).
Local Abbreviation sibling :=
  (stack_sibling category category_of_value py_str).
Local Abbreviation fill :=
  (fill_pack category category_of_value patch_market_name py_str).
Local Abbreviation item := (CsmoneyItem category).
Local Abbreviation parent_fields :=
  (parent_fields category category_of_value patch_market_name py_str).
Local Abbreviation sibling_of := (sibling_of category py_str).

Lemma py_get_dict kvs key : py_get (JDict kvs) key = Ok (get kvs key).
Proof. unfold py_get, get. now destruct (lookup key kvs). Qed.

(** The item of the record itself, then the branch on [is_stack]. *)
Lemma create_items_parent kvs first :
  parent_fields kvs first ->
  create_items (JDict kvs) =
    (is_stack <- py_and (py_contains "stackSize" (JDict kvs))
                   (py_and (py_contains "stackId" (JDict kvs))
                           (py_contains "stackItems" (JDict kvs))) ;;
     if is_stack then
       stack_items <- py_getitem (JDict kvs) "stackItems" ;;
       entries <- py_iter stack_items ;;
       siblings <- mapM (sibling (JDict kvs) (name first)) entries ;;
       Ok (first :: siblings)
     else Ok [first]).
Proof.
  intros [(full_name & Hfn & Hname) Hprice (asset & Hasset & Hid) Hnid
          (code & Hcode & Hcat) Hfloat Hlock Hover].
  destruct first as [n p a i t f u o]. cbn in Hname, Hprice, Hid, Hnid, Hcat, Hfloat, Hlock, Hover.
  subst n a f. cbn [name].
  unfold _create_items. cbn [py_contains py_getitem bind negb].
  rewrite Hfn. cbn [bind negb]. rewrite !py_get_dict. cbn [bind].
  unfold overpay_of in Hover. rewrite Hover. cbn [bind].
  rewrite Hprice, Hasset, Hnid, Hcode. cbn [bind].
  unfold CsmoneyItemCategory. rewrite Hcat. cbn [bind].
  rewrite Hlock. cbn [bind]. reflexivity.
Qed.

Lemma is_stack_grouped kvs :
  grouped kvs ->
  py_and (py_contains "stackSize" (JDict kvs))
    (py_and (py_contains "stackId" (JDict kvs)) (py_contains "stackItems" (JDict kvs)))
  = Ok true.
Proof.
  intros (H1 & H2 & H3). unfold py_and, py_contains. cbn [bind].
  destruct (lookup "stackSize" kvs); [| congruence].
  destruct (lookup "stackId" kvs); [| congruence].
  destruct (lookup "stackItems" kvs); [| congruence]. reflexivity.
Qed.

Lemma sibling_built kvs first stack_item :
  parent_fields kvs first -> sibling_fields stack_item ->
  exists it, sibling (JDict kvs) (name first) stack_item = Ok it
             /\ sibling_of first stack_item it.
Proof.
  intros [_ Hprice _ Hnid (code & Hcode & Hcat) _ _ _] (id & tl & unlock & Hid & Htl & Hu).
  unfold stack_sibling. cbn [py_getitem bind]. rewrite Hprice. cbn [bind].
  rewrite Hid. cbn [bind]. rewrite Hnid, Hcode. cbn [bind].
  unfold CsmoneyItemCategory. rewrite Hcat. cbn [bind].
  destruct stack_item as [| | | | | |skvs]; try discriminate.
  rewrite py_get_dict. cbn [bind]. rewrite Htl. cbn [bind]. rewrite Hu. cbn [bind].
  eexists. split; [reflexivity |].
  unfold sibling_of.
  cbn [name price name_id type_ overpay_float float_ unlock_timestamp asset_id].
  rewrite py_get_dict. repeat split; try reflexivity; eauto.
Qed.

Lemma siblings_built kvs first entries :
  parent_fields kvs first -> Forall sibling_fields entries ->
  exists rest, mapM (sibling (JDict kvs) (name first)) entries = Ok rest
               /\ Forall2 (sibling_of first) entries rest.
Proof.
  intros Hp. induction 1 as [|stack_item entries Hs _ (rest & Hrest & IH)].
  - exists []. split; [reflexivity | constructor].
  - destruct (sibling_built kvs first stack_item Hp Hs) as (it & Hit & Hof).
    exists (it :: rest). cbn [mapM]. rewrite Hit. cbn [bind]. rewrite Hrest. cbn [bind].
    split; [reflexivity | now constructor].
Qed.

(** An entry without [tradeLock] stops the construction with [KeyError]
    (from [id], when that is missing too). *)
Lemma sibling_without_lock kvs first skvs :
  parent_fields kvs first -> lookup "tradeLock" skvs = None ->
  sibling (JDict kvs) (name first) (JDict skvs) = Raise KeyError.
Proof.
  intros [_ Hprice _ Hnid (code & Hcode & Hcat) _ _ _] Hno.
  unfold stack_sibling. cbn [py_getitem bind]. rewrite Hprice. cbn [bind].
  destruct (lookup "id" skvs); [| reflexivity]. cbn [bind].
  rewrite Hnid, Hcode. cbn [bind]. unfold CsmoneyItemCategory. rewrite Hcat. cbn [bind].
  rewrite py_get_dict. cbn [bind]. now rewrite Hno.
Qed.

Lemma mapM_raises {A B : Type} (f : A -> result B) before x after e :
  Forall (fun a => exists b, f a = Ok b) before -> f x = Raise e ->
  mapM f (before ++ x :: after) = Raise e.
Proof.
  intros Hb Hx. induction Hb as [|a before (b & Hab) _ IH]; cbn [mapM app].
  - now rewrite Hx.
  - rewrite Hab. cbn [bind]. now rewrite IH.
Qed.

Lemma fill_pack_raises before json_item after e : forall pack_items,
  Forall (fun r => exists created, create_items r = Ok created) before ->
  create_items json_item = Raise e ->
  fill (before ++ json_item :: after) pack_items = Raise e.
Proof.
  intros pack_items Hb Hx. revert pack_items.
  induction Hb as [|r before (created & Hr) _ IH]; intros pack_items; cbn [fill_pack app].
  - now rewrite Hx.
  - rewrite Hr. cbn [bind]. apply IH.
Qed.

(** With [fullName] present the item of the record is always built, so a
    category code without a member stops [_create_items]: with [ValueError],
    unless one of the fields read before the code already failed. *)
Lemma create_items_unknown_category kvs full_name code :
  lookup "fullName" kvs = Some full_name ->
  lookup "type" kvs = Some code -> category_of_value code = None ->
  exists e, create_items (JDict kvs) = Raise e
    /\ (e = AttributeError \/ e = KeyError \/ e = ValueError)
    /\ ((exists o, overpay_of kvs = Ok o) ->
        lookup "price" kvs <> None -> lookup "assetId" kvs <> None ->
        lookup "nameId" kvs <> None -> e = ValueError).
Proof.
  intros Hfn Hcode Hcat. unfold _create_items.
  cbn [py_contains py_getitem bind]. rewrite Hfn. cbn [negb bind].
  rewrite py_get_dict. cbn [bind]. fold (overpay_of kvs).
  destruct (overpay_of kvs) as [o | e] eqn:Ho.
  - cbn [bind].
    destruct (lookup "price" kvs); cbn [bind];
      [| exists KeyError; repeat split; auto; congruence].
    destruct (lookup "assetId" kvs); cbn [bind];
      [| exists KeyError; repeat split; auto; congruence].
    destruct (lookup "nameId" kvs); cbn [bind];
      [| exists KeyError; repeat split; auto; congruence].
    rewrite Hcode. cbn [bind]. unfold CsmoneyItemCategory. rewrite Hcat. cbn [bind].
    exists ValueError. repeat split; auto.
  - cbn [bind]. exists e. split; [reflexivity |].
    assert (e = AttributeError) as ->.
    { unfold overpay_of in Ho. destruct (truthy (get kvs "overpay")); [| discriminate].
      destruct (get kvs "overpay"); cbn in Ho; try congruence.
      destruct (lookup "float" kvs0); discriminate. }
    split; [auto |]. intros [o Ho']. discriminate.
Qed.


(** C8.  A record without [fullName] gives the empty list, and no error. *)
Theorem create_items_without_full_name :
  forall kvs : list (string * json),
    lookup "fullName" kvs = None -> create_items (JDict kvs) = Ok [].
Proof.
  intros kvs H. unfold _create_items.
  cbn [py_contains bind]. rewrite H. reflexivity.
Qed.

(** C2, as amended.  For a grouped record that has the fields its own item
    is built from, and whose [stackItems] is a list of [N] entries that each
    have [id] and [tradeLock], [_create_items] returns [N + 1] items: the
    item of the record, which alone has the record's [overpay_float], then
    one item per entry, in order, with the name, price, name id and category
    of the first, no [overpay_float], and [float], [tradeLock] and [id] read
    from the entry. *)
Theorem create_items_grouped :
  forall (kvs : list (string * json)) (first : item) (entries : list json),
    parent_fields kvs first ->
    lookup "stackSize" kvs <> None -> lookup "stackId" kvs <> None ->
    lookup "stackItems" kvs = Some (JList entries) ->
    Forall sibling_fields entries ->
    exists rest,
      create_items (JDict kvs) = Ok (first :: rest)
      /\ List.length (first :: rest) = S (List.length entries)
      /\ Forall2 (sibling_of first) entries rest.
Proof.
  intros kvs first entries Hp H1 H2 H3 Hs.
  destruct (siblings_built kvs first entries Hp Hs) as (rest & Hrest & Hof).
  exists rest. split; [| split].
  - rewrite (create_items_parent kvs first Hp), is_stack_grouped.
    + cbn [bind py_getitem]. rewrite H3. cbn [bind py_iter]. rewrite Hrest. reflexivity.
    + repeat split; congruence.
  - cbn [List.length]. f_equal. symmetry. eapply Forall2_length; eassumption.
  - assumption.
Qed.


End TransformerFacts.

(* ===================================================================== *)
(** ** The retry loop                                                     *)
(* ===================================================================== *)

Section OrchestratorFacts.

Variable json_loads : string -> result json.
Variable category : Type.
Variable category_of_value : json -> option category.
Variable patch_market_name : json -> json.
Variable py_str : json -> string.
Variable put_raises : CsmoneyItemPack category -> option exn.
Variable request : nat -> result json.
Variable max_attempts : Z.

Local Abbreviation create_items :=
  (_create_items category category_of_value patch_market_name py_str).
Local Abbreviation fill :=
  (fill_pack category category_of_value patch_market_name py_str).
Local Abbreviation loop :=
  (parse_loop json_loads category category_of_value patch_market_name py_str
     put_raises request max_attempts).
Local Abbreviation exhausted := (after_loop category max_attempts).
Local Abbreviation failed_with := (raised category).
Local Abbreviation extract := (extract json_loads).
Local Abbreviation attempt_succeeds :=
  (attempt_succeeds json_loads category category_of_value patch_market_name py_str
     request).
Local Abbreviation loop_end :=
  (loop_end json_loads category category_of_value patch_market_name py_str put_raises
     request max_attempts).

Lemma attempt_succeeds_once k pack pack' :
  attempt_succeeds k pack -> attempt_succeeds k pack' -> pack = pack'.
Proof.
  intros (h & s & Hr & _ & He & Hf) (h' & s' & Hr' & _ & He' & Hf').
  rewrite Hr in Hr'. injection Hr' as <-. rewrite He in He'. injection He' as <-.
  rewrite Hf in Hf'. destruct pack, pack'. cbn in *. congruence.
Qed.

Ltac enter_loop H :=
  cbn [parse_loop]; rewrite (proj2 (Z.leb_le _ _) H).

Lemma loop_exhausted fuel queue calls failed_attempts :
  max_attempts < failed_attempts ->
  loop fuel queue calls failed_attempts = Some (exhausted queue calls failed_attempts).
Proof.
  intros H. apply Z.leb_gt in H. destruct fuel; cbn [parse_loop]; now rewrite H.
Qed.

Lemma loop_request_error fuel queue calls failed_attempts e :
  failed_attempts <= max_attempts -> request calls = Raise e ->
  loop (S fuel) queue calls failed_attempts
  = Some (failed_with e queue (S calls) failed_attempts).
Proof. intros H Hr. enter_loop H. now rewrite Hr. Qed.

Lemma loop_no_content fuel queue calls failed_attempts html :
  failed_attempts <= max_attempts ->
  request calls = Ok html -> truthy html = false ->
  loop (S fuel) queue calls failed_attempts
  = loop fuel queue (S calls) (failed_attempts + 1).
Proof. intros H Hr Ht. enter_loop H. now rewrite Hr, Ht. Qed.

Lemma loop_extraction_failed fuel queue calls failed_attempts html :
  failed_attempts <= max_attempts ->
  request calls = Ok html -> truthy html = true ->
  extract html = Raise ValueError ->
  loop (S fuel) queue calls failed_attempts
  = loop fuel queue (S calls) (failed_attempts + 1).
Proof.
  intros H Hr Ht He. enter_loop H. rewrite Hr, Ht. cbn [negb].
  unfold extract in He. now rewrite He.
Qed.

Lemma loop_extraction_error fuel queue calls failed_attempts html e :
  failed_attempts <= max_attempts ->
  request calls = Ok html -> truthy html = true ->
  extract html = Raise e -> e <> ValueError ->
  loop (S fuel) queue calls failed_attempts
  = Some (failed_with e queue (S calls) failed_attempts).
Proof.
  intros H Hr Ht He Hne. enter_loop H. rewrite Hr, Ht. cbn [negb].
  unfold extract in He. rewrite He. now destruct e.
Qed.

Lemma loop_transform_error fuel queue calls failed_attempts html skins_data e :
  failed_attempts <= max_attempts ->
  request calls = Ok html -> truthy html = true ->
  extract html = Ok skins_data -> fill skins_data [] = Raise e ->
  loop (S fuel) queue calls failed_attempts
  = Some (failed_with e queue (S calls) failed_attempts).
Proof.
  intros H Hr Ht He Hf. enter_loop H. rewrite Hr, Ht. cbn [negb].
  unfold extract in He. rewrite He. unfold _process_items. now rewrite Hf.
Qed.

Lemma loop_put fuel queue calls failed_attempts html skins_data pack_items :
  failed_attempts <= max_attempts ->
  request calls = Ok html -> truthy html = true ->
  extract html = Ok skins_data -> fill skins_data [] = Ok pack_items ->
  loop (S fuel) queue calls failed_attempts
  = Some {| outcome := match put_raises {| items := pack_items |} with
                       | Some e => Raise e
                       | None => Ok tt
                       end;
            puts := queue ++ [{| items := pack_items |}];
            requests := S calls;
            failed := failed_attempts |}.
Proof.
  intros H Hr Ht He Hf. enter_loop H. rewrite Hr, Ht. cbn [negb].
  unfold extract in He. rewrite He. unfold _process_items. rewrite Hf.
  unfold put. destruct (put_raises _); [reflexivity |].
  unfold after_loop. now rewrite Z.gtb_ltb, (proj2 (Z.ltb_ge _ _) H).
Qed.

Lemma loop_end_earlier queue calls r :
  (forall pack, ~ attempt_succeeds calls pack) ->
  loop_end queue (S calls) r -> loop_end queue calls r.
Proof.
  intros Hno [Hp Ho Hx Hr | pack Hp Ho Hf Hc Hs Hr].
  - apply ended_without_put; try assumption.
    intros k p Hk. destruct (Nat.eq_dec k calls) as [-> | Hne]; [apply Hno |].
    apply Hr. lia.
  - apply ended_with_put with (pack := pack); try assumption; [lia |].
    intros k p Hk. destruct (Nat.eq_dec k calls) as [-> | Hne]; [apply Hno |].
    apply Hr. lia.
Qed.

Lemma failed_run_end queue calls failed_attempts e :
  failed_attempts <= max_attempts ->
  (forall pack, ~ attempt_succeeds calls pack) ->
  loop_end queue calls (failed_with e queue (S calls) failed_attempts).
Proof.
  intros H Hno. apply ended_without_put; cbn.
  - reflexivity.
  - now exists e.
  - lia.
  - intros k p Hk. replace k with calls by lia. apply Hno.
Qed.

(** The loop ends, in one of the two ways, whenever the fuel covers the
    attempts that are left. *)
Lemma loop_runs fuel : forall queue calls failed_attempts,
  (Z.to_nat (max_attempts + 1 - failed_attempts) <= fuel)%nat ->
  exists r, loop fuel queue calls failed_attempts = Some r /\ loop_end queue calls r.
Proof.
  assert (Hout : forall fuel queue calls failed_attempts,
             max_attempts < failed_attempts ->
             exists r, loop fuel queue calls failed_attempts = Some r
                       /\ loop_end queue calls r).
  { intros fuel' queue calls failed_attempts Hgt.
    rewrite loop_exhausted by assumption. eexists. split; [reflexivity |].
    assert (Hx : (failed_attempts >? max_attempts) = true) by (apply Z.gtb_lt; lia).
    apply ended_without_put; cbn; rewrite ?Hx; eauto. intros; lia. }
  induction fuel as [|fuel IH]; intros queue calls failed_attempts Hfuel;
    destruct (Z_le_gt_dec failed_attempts max_attempts) as [Hle | Hgt];
    try (apply Hout; lia); try (exfalso; lia).
  assert (Hnext : (Z.to_nat (max_attempts + 1 - (failed_attempts + 1)) <= fuel)%nat)
    by lia.
  destruct (request calls) as [html | e] eqn:Hr.
  2:{ rewrite (loop_request_error _ _ _ _ e) by assumption.
      eexists. split; [reflexivity |]. apply failed_run_end; [assumption |].
      intros pack (h & s & Hr' & _). congruence. }
  destruct (truthy html) eqn:Ht.
  2:{ rewrite (loop_no_content _ _ _ _ html) by assumption.
      destruct (IH queue (S calls) _ Hnext) as (r & Hrun & Hend).
      exists r. split; [assumption |]. apply loop_end_earlier; [| assumption].
      intros pack (h & s & Hr' & Ht' & _). congruence. }
  destruct (extract html) as [skins_data | e] eqn:He.
  2:{ assert (Hno : forall pack, ~ attempt_succeeds calls pack).
      { intros pack (h & s & Hr' & _ & He' & _). congruence. }
      destruct (exn_eqb e ValueError) eqn:Ee.
      - assert (e = ValueError) as -> by (destruct e; now try discriminate).
        rewrite (loop_extraction_failed _ _ _ _ html) by assumption.
        destruct (IH queue (S calls) _ Hnext) as (r & Hrun & Hend).
        exists r. split; [assumption |]. now apply loop_end_earlier.
      - rewrite (loop_extraction_error _ _ _ _ html e); try assumption.
        + eexists. split; [reflexivity |]. now apply failed_run_end.
        + intros ->. discriminate. }
  destruct (fill skins_data []) as [pack_items | e] eqn:Hf.
  + rewrite (loop_put _ _ _ _ html skins_data pack_items) by assumption.
    eexists. split; [reflexivity |].
    apply ended_with_put with (pack := {| items := pack_items |}); cbn; try reflexivity;
      try lia.
    now exists html, skins_data.
  + rewrite (loop_transform_error _ _ _ _ html skins_data e) by assumption.
    eexists. split; [reflexivity |]. apply failed_run_end; [assumption |].
    intros pack (h & s & Hr' & _ & He' & Hf'). congruence.
Qed.

(** C1.  A call of [parse] ends, and its queue then holds at most one pack:
    exactly one when a request brought a page from which a pack was built
    (that pack, and this request was the last), and none when no request
    did; none either when the attempts ran out.  A call that returns has
    put exactly one pack. *)
Theorem parse_puts_once_or_never :
  exists r : run category,
    parse json_loads category category_of_value patch_market_name py_str put_raises
      request max_attempts = Some r
    /\ (List.length (puts r) <= 1)%nat
    /\ (forall k pack, (k < requests r)%nat -> attempt_succeeds k pack ->
          puts r = [pack] /\ requests r = S k)
    /\ ((forall k pack, (k < requests r)%nat -> ~ attempt_succeeds k pack) ->
          puts r = [] /\ exists e, outcome r = Raise e)
    /\ (max_attempts < failed r ->
          puts r = [] /\ outcome r = Raise MaxAttemptsReachedError)
    /\ (outcome r = Ok tt -> exists pack, puts r = [pack]).
Proof.
  destruct (loop_runs (Z.to_nat (max_attempts + 1)) [] 0 0) as (r & Hrun & Hend);
    [lia |].
  exists r. split; [exact Hrun |].
  destruct Hend as [Hp (e & Ho) Hx Hr | pack Hp Ho Hf Hc Hs Hr]; cbn [app] in Hp.
  - rewrite Hp. cbn [List.length]. repeat split; auto.
    + exfalso. apply (Hr k pack); [lia | assumption].
    + exfalso. apply (Hr k pack); [lia | assumption].
    + now exists e.
    + intros H. congruence.
  - rewrite Hp. cbn [List.length]. split; [lia |]. split; [| split; [| split]].
    + intros k p Hk Hsk.
      destruct (Nat.eq_dec k (pred (requests r))) as [-> | Hne].
      * split; [| lia]. f_equal. eapply attempt_succeeds_once; eassumption.
      * exfalso. apply (Hr k p); [lia | assumption].
    + intros Hnone. exfalso. apply (Hnone (pred (requests r)) pack); [lia | assumption].
    + intros H. lia.
    + intros _. now exists pack.
Qed.




Lemma reaches_skins_info data info :
  reaches _SKINS_PATH data (JDict info) ->
  _extract_skins data
  = match get info "skins" with
    | JList l => Ok l
    | _ => Ok []
    end.
Proof.
  unfold _extract_skins, _SKINS_PATH. cbn [reaches].
  intros (k0 & v0 & -> & H0 & k1 & v1 & -> & H1 & k2 & v2 & -> & H2
          & k3 & v3 & -> & H3 & ->).
  cbn [py_getitem bind]. rewrite H0. cbn [py_getitem bind]. rewrite H1.
  cbn [py_getitem bind]. rewrite H2. cbn [py_getitem bind]. rewrite H3.
  cbn [reraise_as bind]. rewrite py_get_dict. reflexivity.
Qed.

(** C3.  With [max_attempts = 0] and nothing but empty answers, [parse]
    makes one request, raises [MaxAttemptsReachedError], and puts nothing. *)
Theorem parse_zero_attempts :
  max_attempts = 0 ->
  (forall k, exists v, request k = Ok v /\ truthy v = false) ->
  parse json_loads category category_of_value patch_market_name py_str put_raises
    request max_attempts
  = Some {| outcome := Raise MaxAttemptsReachedError; puts := [];
            requests := 1; failed := 1 |}.
Proof.
  intros Hmax Hnone. destruct (Hnone 0%nat) as (v & Hr & Hv).
  unfold parse. replace (Z.to_nat (max_attempts + 1)) with 1%nat by lia.
  rewrite (loop_no_content _ _ _ _ v) by (assumption || lia).
  rewrite loop_exhausted by lia. unfold after_loop.
  now replace (0 + 1 >? max_attempts) with true by (symmetry; apply Z.gtb_lt; lia).
Qed.


(** C4, as amended.  A record that has [fullName] and a category code
    without a member makes [_create_items] raise: [ValueError], when the
    fields read before the code are there, and never
    [MaxAttemptsReachedError].  When such a record is the first of a page to
    fail, [parse] ends with that exception at this request, and puts nothing. *)
Theorem unknown_category_escapes_parse :
  forall (kvs : list (string * json)) (full_name code : json),
    lookup "fullName" kvs = Some full_name ->
    lookup "type" kvs = Some code -> category_of_value code = None ->
    exists e,
      create_items (JDict kvs) = Raise e
      /\ e <> MaxAttemptsReachedError
      /\ ((exists o, overpay_of kvs = Ok o) ->
          lookup "price" kvs <> None -> lookup "assetId" kvs <> None ->
          lookup "nameId" kvs <> None -> e = ValueError)
      /\ (forall fuel queue calls failed_attempts html before after,
            failed_attempts <= max_attempts ->
            request calls = Ok html -> truthy html = true ->
            extract html = Ok (before ++ JDict kvs :: after) ->
            Forall (fun r => exists created, create_items r = Ok created) before ->
            loop (S fuel) queue calls failed_attempts
            = Some (failed_with e queue (S calls) failed_attempts)).
Proof.
  intros kvs full_name code Hfn Hcode Hcat.
  destruct (create_items_unknown_category category category_of_value patch_market_name
              py_str kvs full_name code Hfn Hcode Hcat) as (e & He & Hkind & Hvalue).
  exists e. split; [exact He | split; [| split; [exact Hvalue |]]].
  - destruct Hkind as [-> | [-> | ->]]; discriminate.
  - intros fuel queue calls failed_attempts html before after Hle Hr Ht Hx Hb.
    apply (loop_transform_error _ _ _ _ html (before ++ JDict kvs :: after));
      try assumption.
    now apply fill_pack_raises.
Qed.

(** C10.  In a grouped record whose own fields are in order, an entry of
    [stackItems] without [tradeLock] makes [_create_items] raise [KeyError],
    although the record itself may lack [tradeLock] (its item then has no
    unlock time); the [KeyError] ends [parse] at this request, with nothing
    put. *)
Theorem sibling_without_trade_lock_raises :
  forall (kvs : list (string * json)) (first : CsmoneyItem category)
         (before after : list json) (skvs : list (string * json)),
    parent_fields category category_of_value patch_market_name py_str kvs first ->
    lookup "stackSize" kvs <> None -> lookup "stackId" kvs <> None ->
    lookup "stackItems" kvs = Some (JList (before ++ JDict skvs :: after)) ->
    Forall sibling_fields before ->
    lookup "tradeLock" skvs = None ->
    create_items (JDict kvs) = Raise KeyError
    /\ (lookup "tradeLock" kvs = None -> unlock_timestamp first = None)
    /\ (forall fuel queue calls failed_attempts html records_before records_after,
          failed_attempts <= max_attempts ->
          request calls = Ok html -> truthy html = true ->
          extract html = Ok (records_before ++ JDict kvs :: records_after) ->
          Forall (fun r => exists created, create_items r = Ok created) records_before ->
          loop (S fuel) queue calls failed_attempts
          = Some (failed_with KeyError queue (S calls) failed_attempts)).
Proof.
  intros kvs first before after skvs Hp H1 H2 H3 Hb Hno.
  assert (Hraise : create_items (JDict kvs) = Raise KeyError).
  { rewrite (create_items_parent _ _ _ _ kvs first Hp), is_stack_grouped.
    - cbn [bind py_getitem]. rewrite H3. cbn [bind py_iter].
      rewrite (mapM_raises _ before (JDict skvs) after KeyError); [reflexivity | |].
      + eapply Forall_impl; [| exact Hb]. intros entry Hentry.
        destruct (sibling_built _ _ _ _ kvs first entry Hp Hentry) as (it & Hit & _).
        now exists it.
      + eapply sibling_without_lock; eassumption.
    - repeat split; congruence. }
  split; [exact Hraise | split].
  - intros Hnone. destruct Hp as [_ _ _ _ _ _ Hlock _].
    unfold get in Hlock. rewrite Hnone in Hlock. cbn in Hlock. congruence.
  - intros fuel queue calls failed_attempts html rb ra Hle Hr Ht Hx Hrb.
    apply (loop_transform_error _ _ _ _ html (rb ++ JDict kvs :: ra)); try assumption.
    now apply fill_pack_raises.
Qed.

End OrchestratorFacts.

(* ===================================================================== *)
(** ** The statements at the inputs of the test suite                     *)
(* ===================================================================== *)

Local Abbreviation sample_parent_fields :=
  (parent_fields Sample.category Sample.category_of_value Sample.patch_market_name
     Sample.py_str).

Lemma bayonet_parent_fields : sample_parent_fields Sample.bayonet_fields Sample.bayonet_item.
Proof.
  constructor; try reflexivity;
    eexists; (split; [reflexivity | reflexivity]).
Defined.

Lemma gloves_parent_fields : sample_parent_fields Sample.gloves_fields Sample.gloves_item.
Proof.
  constructor; try reflexivity;
    eexists; (split; [reflexivity | reflexivity]).
Defined.



(** A record without [fullName], through C8. *)
Lemma create_items_without_full_name_witness :
  lookup "fullName" Sample.nameless_999_fields = None
  /\ Sample.create_items (JDict Sample.nameless_999_fields) = Ok [].
Proof.
  split; [reflexivity |].
  apply (create_items_without_full_name Sample.category Sample.category_of_value
           Sample.patch_market_name Sample.py_str Sample.nameless_999_fields).
  reflexivity.
Defined.

(** [test_create_items_with_stack_and_tradelock], through C2. *)
Lemma create_items_grouped_witness :
  exists rest,
    Sample.create_items (JDict Sample.bayonet_fields) = Ok (Sample.bayonet_item :: rest)
    /\ List.length (Sample.bayonet_item :: rest) = 2%nat
    /\ Forall2 (sibling_of Sample.category Sample.py_str Sample.bayonet_item)
         [Sample.bayonet_entry] rest.
Proof.
  apply (create_items_grouped Sample.category Sample.category_of_value
           Sample.patch_market_name Sample.py_str Sample.bayonet_fields
           Sample.bayonet_item [Sample.bayonet_entry]).
  - exact bayonet_parent_fields.
  - discriminate.
  - discriminate.
  - reflexivity.
  - constructor; [| constructor].
    exists (JInt 24902572721), (JInt 1645430400000), (Some {| timestamp := 1645430400 |}).
    repeat split.
Defined.

(** C2 as the specification words it fails on a grouped record without
    [fullName]: one entry in [stackItems], and no item at all. *)
Lemma create_items_grouped_nameless :
  grouped Sample.nameless_stack_fields
  /\ lookup "stackItems" Sample.nameless_stack_fields = Some (JList [Sample.bayonet_entry])
  /\ Sample.create_items (JDict Sample.nameless_stack_fields) = Ok [].
Proof. repeat split; discriminate. Qed.

(** [test_parse__raises_when_max_attempts_reached], through C3. *)
Lemma parse_zero_attempts_witness :
  (forall k : nat, exists v, Sample.serve [] k = Ok v /\ truthy v = false)
  /\ Sample.run_parse (Sample.serve []) 0
     = Some {| outcome := Raise MaxAttemptsReachedError; puts := [];
               requests := 1; failed := 1 |}.
Proof.
  assert (H : forall k : nat, exists v, Sample.serve [] k = Ok v /\ truthy v = false).
  { intros k. exists JNull. unfold Sample.serve. now destruct k. }
  split; [exact H |].
  exact (parse_zero_attempts Sample.json_loads Sample.category Sample.category_of_value
           Sample.patch_market_name Sample.py_str Sample.put_raises (Sample.serve []) 0
           eq_refl H).
Defined.

(** A page whose only record has [fullName] and the code 999, through C4. *)
Lemma unknown_category_escapes_parse_witness :
  Sample.category_of_value (JInt 999) = None
  /\ Sample.create_items (JDict Sample.redline_999_fields) = Raise ValueError
  /\ Sample.run_parse (Sample.serve [JStr (Sample.html_of "{redline 999}")]) 5
     = Some {| outcome := Raise ValueError; puts := []; requests := 1; failed := 0 |}.
Proof.
  destruct (unknown_category_escapes_parse Sample.json_loads Sample.category
              Sample.category_of_value Sample.patch_market_name Sample.py_str
              Sample.put_raises
              (Sample.serve [JStr (Sample.html_of "{redline 999}")]) 5
              Sample.redline_999_fields
              (JStr "AK-47 | Redline (Field-Tested)") (JInt 999)
              eq_refl eq_refl eq_refl)
    as (e & He & _ & Hvalue & Hparse).
  assert (e = ValueError) as ->.
  { apply Hvalue; [now exists JNull | discriminate | discriminate | discriminate]. }
  split; [reflexivity |]. split; [exact He |].
  apply (Hparse 5%nat [] 0%nat 0 (JStr (Sample.html_of "{redline 999}")) [] []).
  - discriminate.
  - reflexivity.
  - reflexivity.
  - reflexivity.
  - constructor.
Defined.

(** C4 as the specification words it fails on a record without [fullName]:
    its category code has no member, and yet nothing is raised; the record
    is dropped and [parse] puts the (empty) pack. *)
Lemma unknown_category_nameless_dropped :
  lookup "type" Sample.nameless_999_fields = Some (JInt 999)
  /\ Sample.category_of_value (JInt 999) = None
  /\ Sample.create_items (JDict Sample.nameless_999_fields) = Ok []
  /\ Sample.run_parse (Sample.serve [JStr (Sample.html_of "{nameless 999}")]) 5
     = Some {| outcome := Ok tt; puts := [{| items := [] |}];
               requests := 1; failed := 0 |}.
Proof. repeat split. Qed.

(** C5 on the code.  [_extract_next_data] raises [TypeError] on every dict,
    where [test_extract_next_data_from_dict] expects the dict back; the
    payload of [test_parse_handles_json_payload] ends [parse] with that
    [TypeError], where the page that embeds the same snapshot is parsed. *)
Theorem extract_next_data_of_dict :
  (forall (json_loads : string -> result json) (kvs : list (string * json)),
      _extract_next_data json_loads (JDict kvs) = Raise TypeError)
  /\ _extract_next_data Sample.json_loads (JStr (Sample.html_of "{redline}"))
     = Ok Sample.payload
  /\ Sample.run_parse (Sample.serve [Sample.payload]) 1
     = Some {| outcome := Raise TypeError; puts := []; requests := 1; failed := 0 |}
  /\ Sample.run_parse (Sample.serve [JStr (Sample.html_of "{redline}")]) 1
     = Some {| outcome := Ok tt; puts := [{| items := [Sample.redline_item] |}];
               requests := 1; failed := 0 |}.
Proof. repeat split. Qed.



(** A page with a grouped record whose entry has no [tradeLock], after a
    record that is in order, through C10. *)
Lemma sibling_without_trade_lock_witness :
  lookup "tradeLock" Sample.gloves_fields = None
  /\ Sample.create_items (JDict Sample.gloves_fields) = Raise KeyError
  /\ unlock_timestamp Sample.gloves_item = None
  /\ Sample.run_parse (Sample.serve [JStr (Sample.html_of "{gloves}")]) 300
     = Some {| outcome := Raise KeyError; puts := []; requests := 1; failed := 0 |}.
Proof.
  destruct (sibling_without_trade_lock_raises Sample.json_loads Sample.category
              Sample.category_of_value Sample.patch_market_name Sample.py_str
              Sample.put_raises (Sample.serve [JStr (Sample.html_of "{gloves}")]) 300
              Sample.gloves_fields Sample.gloves_item [] []
              [("id", JInt 24571330159); ("float", JStr "0.067453943192958")]
              gloves_parent_fields)
    as (Hraise & Hparent & Hparse);
    [discriminate | discriminate | reflexivity | constructor | reflexivity |].
  split; [reflexivity |]. split; [exact Hraise |]. split; [exact (Hparent eq_refl) |].
  apply (Hparse 300%nat [] 0%nat 0 (JStr (Sample.html_of "{gloves}"))
           [Sample.redline] []).
  - discriminate.
  - reflexivity.
  - reflexivity.
  - reflexivity.
  - constructor; [| constructor]. now exists [Sample.redline_item].
Defined.

(** The scenario of the specification: a transport error, a challenge
    page, then a page with two records: one pack, with the items of both
    records in their order. *)
Example parse_after_two_failed_requests :
  Sample.run_parse
    (fun k => _request (nth k [ TransportError;
                                Body "<html><title>Just a moment...</title></html>";
                                Body (Sample.html_of "{redline}") ] TransportError))
    _MAX_ATTEMPTS_DEFAULT
  = Some {| outcome := Ok tt; puts := [{| items := [Sample.redline_item] |}];
            requests := 3; failed := 2 |}.
Proof. reflexivity. Qed.

(* ===================================================================== *)
(** ** The snapshot pattern                                               *)
(* ===================================================================== *)

Section PatternFacts.

Local Open Scope string_scope.

Lemma append_assoc_s a b c : (a ++ b) ++ c = a ++ b ++ c.
Proof. induction a as [|x a IH]; simpl; [reflexivity | now rewrite IH]. Qed.

Lemma append_empty_r a : a ++ "" = a.
Proof. induction a as [|x a IH]; simpl; [reflexivity | now rewrite IH]. Qed.

Lemma not_occurs needle hay : str_contains needle hay = false -> ~ occurs needle hay.
Proof. intros H Ho. apply str_contains_spec in Ho. congruence. Qed.

Lemma drop_append n rest : drop (String.length n) (n ++ rest) = rest.
Proof. induction n as [|x n IH]; simpl; [reflexivity | exact IH]. Qed.

(** A prefix of [a ++ t] is a prefix of [a], or [a] and then a prefix of [t]. *)
Lemma starts_with_append n : forall a t,
  starts_with n (a ++ t) = true ->
  (exists m, a = n ++ m) \/ (exists m, n = a ++ m /\ starts_with m t = true).
Proof.
  induction n as [|c n IH]; intros a t H.
  - left. now exists a.
  - destruct a as [|x a].
    + right. now exists (String c n).
    + simpl in H. apply andb_true_iff in H as [Hc H]. apply Ascii.eqb_eq in Hc. subst x.
      destruct (IH a t H) as [[m ->] | [m [-> Hm]]].
      * left. now exists m.
      * right. now exists m.
Qed.

Lemma has_char_append c a b : has_char c (a ++ b) = has_char c a || has_char c b.
Proof.
  induction a as [|x a IH]; simpl; [reflexivity |]. now rewrite IH, orb_assoc.
Qed.

(** A needle whose first character does not come back in it cannot start
    inside a text it does not occur in and run into a copy of itself. *)
Lemma starts_with_no_overlap c n a rest :
  has_char c n = false -> a <> "" -> ~ occurs (String c n) a ->
  starts_with (String c n) (a ++ String c n ++ rest) = false.
Proof.
  intros Hc Ha Hno. destruct (starts_with _ _) eqn:H; [exfalso | reflexivity].
  apply starts_with_append in H as [[m ->] | [m [Hn Hm]]].
  - apply Hno. now exists "", m.
  - destruct a as [|x a]; [congruence |]. simpl in Hn. injection Hn as <- ->.
    destruct m as [|y m].
    + apply Hno. exists "", "". simpl. now rewrite !append_empty_r.
    + simpl in Hm. apply andb_true_iff in Hm as [Hy _]. apply Ascii.eqb_eq in Hy. subst y.
      rewrite has_char_append in Hc. simpl in Hc. rewrite Ascii.eqb_refl in Hc.
      simpl in Hc. now rewrite orb_true_r in Hc.
Qed.

Lemma occurs_tail needle x a : occurs needle a -> occurs needle (String x a).
Proof. intros (b & r & ->). now exists (String x b), r. Qed.

Lemma starts_with_drop n h :
  starts_with n h = true -> h = n ++ drop (String.length n) h.
Proof. intros H. apply starts_with_spec in H as [r ->]. now rewrite drop_append. Qed.

Lemma find_split_spec needle : forall hay before after,
  find_split needle hay = Some (before, after) -> hay = before ++ needle ++ after.
Proof.
  induction hay as [|x hay IH]; intros before after; cbn [find_split].
  - destruct (starts_with needle "") eqn:Hs; [| discriminate].
    intros H. injection H as <- <-. now apply starts_with_drop.
  - destruct (starts_with needle (String x hay)) eqn:Hs.
    + intros H. injection H as <- <-. now apply starts_with_drop.
    + destruct (find_split needle hay) as [[b r] |] eqn:Hf; [| discriminate].
      intros H. injection H as <- <-. simpl. f_equal. now apply IH.
Qed.

(** The occurrence [find_split] finds is the first one. *)
Lemma find_split_first needle : forall hay before after,
  needle <> "" -> find_split needle hay = Some (before, after) ->
  str_contains needle before = false.
Proof.
  intros hay before after Hne. revert before after.
  induction hay as [|x hay IH]; intros before after; cbn [find_split].
  - destruct (starts_with needle "") eqn:Hs; [| discriminate].
    intros H. injection H as <- _. destruct needle; [congruence | reflexivity].
  - destruct (starts_with needle (String x hay)) eqn:Hs.
    + intros H. injection H as <- _. destruct needle; [congruence | reflexivity].
    + destruct (find_split needle hay) as [[b r] |] eqn:Hf; [| discriminate].
      intros H. injection H as <- <-. cbn [str_contains].
      rewrite (IH b r eq_refl), orb_false_r.
      destruct (starts_with needle (String x b)) eqn:Hb; [| reflexivity].
      apply starts_with_spec in Hb as [t Ht].
      apply find_split_spec in Hf. subst hay.
      assert (Hx : starts_with needle (String x (b ++ needle ++ r)) = true).
      { apply starts_with_spec. exists (t ++ needle ++ r).
        change (String x (b ++ needle ++ r)) with (String x b ++ needle ++ r).
        now rewrite Ht, append_assoc_s. }
      congruence.
Qed.

Lemma find_split_eq needle hay :
  find_split needle hay
  = if starts_with needle hay then Some ("", drop (String.length needle) hay)
    else match hay with
         | "" => None
         | String x hay' =>
             match find_split needle hay' with
             | Some (before, after) => Some (String x before, after)
             | None => None
             end
         end.
Proof. now destruct hay. Qed.

Lemma find_split_found c n a rest :
  has_char c n = false -> str_contains (String c n) a = false ->
  find_split (String c n) (a ++ String c n ++ rest) = Some (a, rest).
Proof.
  intros Hc Hno. apply not_occurs in Hno. induction a as [|x a IH].
  - change ("" ++ String c n ++ rest) with (String c n ++ rest).
    rewrite find_split_eq.
    replace (starts_with (String c n) (String c n ++ rest)) with true
      by (symmetry; apply starts_with_spec; now exists rest).
    now rewrite drop_append.
  - change (String x a ++ String c n ++ rest) with (String x (a ++ String c n ++ rest)).
    cbn [find_split].
    change (String x (a ++ String c n ++ rest)) with (String x a ++ String c n ++ rest).
    rewrite starts_with_no_overlap; [| assumption | discriminate | assumption].
    rewrite IH; [reflexivity |]. intros Ho. apply Hno. now apply occurs_tail.
Qed.

Lemma skip_not_gt_spec s :
  exists attrs, s = attrs ++ skip_not_gt s /\ has_char ">" attrs = false.
Proof.
  induction s as [|x s (attrs & Hs & Ha)]; [now exists "" |].
  cbn [skip_not_gt]. destruct (Ascii.eqb x ">") eqn:Hx; [now exists "" |].
  exists (String x attrs). cbn [append has_char]. rewrite <- Hs. split; [reflexivity |].
  now rewrite Ascii.eqb_sym, Hx, Ha.
Qed.

Lemma skip_not_gt_found attrs rest :
  has_char ">" attrs = false -> skip_not_gt (attrs ++ String ">" rest) = String ">" rest.
Proof.
  induction attrs as [|x attrs IH]; cbn [append has_char skip_not_gt].
  - now rewrite Ascii.eqb_refl.
  - intros H. apply orb_false_iff in H as [Hx H]. rewrite Ascii.eqb_sym, Hx. now apply IH.
Qed.

(** What a match of the pattern at the start of a text says of the text. *)
Lemma match_at_sound s data :
  match_next_data_at s = Some data ->
  exists attrs post,
    s = _NEXT_DATA_OPEN ++ attrs ++ ">" ++ data ++ _NEXT_DATA_CLOSE ++ post
    /\ has_char ">" attrs = false
    /\ str_contains _NEXT_DATA_CLOSE data = false.
Proof.
  unfold match_next_data_at.
  destruct (starts_with _NEXT_DATA_OPEN s) eqn:Hs; [| discriminate].
  apply starts_with_spec in Hs as [r ->]. rewrite drop_append.
  destruct (skip_not_gt_spec r) as (attrs & Hr & Ha).
  destruct (skip_not_gt r) as [|g after_gt] eqn:Hg; [discriminate |].
  destruct (find_split _NEXT_DATA_CLOSE after_gt) as [[d post] |] eqn:Hf; [| discriminate].
  intros H. injection H as <-.
  assert (g = ">"%char) as ->.
  { destruct r as [|x r]; [discriminate |]. revert Hg. clear.
    induction (String x r) as [|y t IH]; cbn [skip_not_gt]; [discriminate |].
    destruct (Ascii.eqb y ">") eqn:Hy; [| exact IH].
    intros H. injection H as -> _. now apply Ascii.eqb_eq in Hy. }
  exists attrs, post. split; [| split; [exact Ha |]].
  - rewrite Hr. apply find_split_spec in Hf. now rewrite Hf.
  - apply (find_split_first _ after_gt d post); [discriminate | exact Hf].
Qed.

Lemma match_at_found attrs data post :
  has_char ">" attrs = false -> str_contains _NEXT_DATA_CLOSE data = false ->
  match_next_data_at
    (_NEXT_DATA_OPEN ++ attrs ++ ">" ++ data ++ _NEXT_DATA_CLOSE ++ post)
  = Some data.
Proof.
  intros Ha Hd. unfold match_next_data_at.
  replace (starts_with _NEXT_DATA_OPEN (_NEXT_DATA_OPEN ++ _)) with true
    by (symmetry; apply starts_with_spec; eexists; reflexivity).
  rewrite drop_append. change (">" ++ ?x) with (String ">" x).
  rewrite skip_not_gt_found by assumption.
  change _NEXT_DATA_CLOSE with (String "<" "/script>") at 2.
  change _NEXT_DATA_CLOSE with (String "<" "/script>") at 1.
  rewrite find_split_found; [reflexivity | reflexivity | exact Hd].
Qed.

Lemma search_sound html : forall data,
  search_next_data html = Some data ->
  exists pre attrs post,
    html = pre ++ _NEXT_DATA_OPEN ++ attrs ++ ">" ++ data ++ _NEXT_DATA_CLOSE ++ post
    /\ has_char ">" attrs = false
    /\ str_contains _NEXT_DATA_CLOSE data = false.
Proof.
  induction html as [|x html IH]; intros data; cbn [search_next_data].
  - destruct (match_next_data_at "") eqn:Hm; [| discriminate].
    intros H. injection H as ->. apply match_at_sound in Hm as (attrs & post & H).
    now exists "", attrs, post.
  - destruct (match_next_data_at (String x html)) eqn:Hm.
    + intros H. injection H as ->. apply match_at_sound in Hm as (attrs & post & H).
      now exists "", attrs, post.
    + intros H. apply IH in H as (pre & attrs & post & -> & H).
      now exists (String x pre), attrs, post.
Qed.

Lemma match_at_needs_open s :
  starts_with _NEXT_DATA_OPEN s = false -> match_next_data_at s = None.
Proof. intros H. unfold match_next_data_at. now rewrite H. Qed.

Lemma search_found pre s data :
  str_contains _NEXT_DATA_OPEN pre = false ->
  (exists rest, s = _NEXT_DATA_OPEN ++ rest) ->
  match_next_data_at s = Some data ->
  search_next_data (pre ++ s) = Some data.
Proof.
  intros Hpre [rest ->] Hm. apply not_occurs in Hpre. induction pre as [|x pre IH].
  - cbn [append]. destruct (_NEXT_DATA_OPEN ++ rest); cbn [search_next_data];
      now rewrite Hm.
  - change (String x pre ++ ?t) with (String x (pre ++ t)). cbn [search_next_data].
    rewrite match_at_needs_open.
    + apply IH. intros Ho. apply Hpre. now apply occurs_tail.
    + change (String x (pre ++ ?t)) with (String x pre ++ t).
      change _NEXT_DATA_OPEN with (String "<" (drop 1 _NEXT_DATA_OPEN)) in *.
      apply (starts_with_no_overlap "<" (drop 1 _NEXT_DATA_OPEN) (String x pre) rest);
        [reflexivity | discriminate | exact Hpre].
Qed.

Lemma search_needs_open html :
  str_contains _NEXT_DATA_OPEN html = false -> search_next_data html = None.
Proof.
  induction html as [|x html IH]; cbn [str_contains search_next_data]; intros H;
    apply orb_false_iff in H as [Hs H]; rewrite (match_at_needs_open _ Hs);
    [reflexivity | now apply IH].
Qed.

End PatternFacts.

(* ===================================================================== *)
(** ** Further properties of the extractor                                *)
(* ===================================================================== *)

Section ExtractorFacts.

Variable json_loads : string -> result json.
Variable category : Type.
Variable category_of_value : json -> option category.
Variable patch_market_name : json -> json.
Variable py_str : json -> string.
Variable put_raises : CsmoneyItemPack category -> option exn.
Variable request : nat -> result json.
Variable max_attempts : Z.

Local Abbreviation loop :=
  (parse_loop json_loads category category_of_value patch_market_name py_str
     put_raises request max_attempts).
Local Abbreviation failed_with := (raised category).
Local Abbreviation extract := (extract json_loads).

(** X1.  Whatever text [_extract_next_data] is given, it either raises
    [ValueError] because the pattern matches nowhere, or hands to
    [json.loads] a piece of the text that stands right after the opening tag
    of a [__NEXT_DATA__] script (the tag's own attributes hold no [>]) and
    right before a [</script>], and that holds no [</script>] itself. *)
Theorem extract_next_data_decodes_a_script_body :
  forall text : string,
    (search_next_data text = None
     /\ _extract_next_data json_loads (JStr text) = Raise ValueError)
    \/ (exists pre attrs data post,
          text = (pre ++ _NEXT_DATA_OPEN ++ attrs ++ ">" ++ data
                  ++ _NEXT_DATA_CLOSE ++ post)%string
          /\ has_char ">" attrs = false
          /\ str_contains _NEXT_DATA_CLOSE data = false
          /\ _extract_next_data json_loads (JStr text) = json_loads data).
Proof.
  intros text. unfold _extract_next_data.
  destruct (search_next_data text) as [data |] eqn:Hs.
  - right. apply search_sound in Hs as (pre & attrs & post & Ht & Ha & Hd).
    now exists pre, attrs, data, post.
  - left. now split.
Qed.

(** X2.  A page that holds a [__NEXT_DATA__] script, with no opening tag of
    one before it, no [>] in the attributes after the fixed ones, and no
    [</script>] in the body, is decoded from exactly that body, whatever
    follows the script. *)
Theorem extract_next_data_of_embedded :
  forall pre attrs data post : string,
    str_contains _NEXT_DATA_OPEN pre = false ->
    has_char ">" attrs = false ->
    str_contains _NEXT_DATA_CLOSE data = false ->
    _extract_next_data json_loads
      (JStr (pre ++ _NEXT_DATA_OPEN ++ attrs ++ ">" ++ data
             ++ _NEXT_DATA_CLOSE ++ post)%string)
    = json_loads data.
Proof.
  intros pre attrs data post Hpre Ha Hd. unfold _extract_next_data.
  rewrite (search_found pre _ data Hpre); [reflexivity | eexists; reflexivity |].
  now apply match_at_found.
Qed.

(** X3.  A page in which the opening tag of the script, or [</script>],
    occurs nowhere makes [_extract_next_data] raise [ValueError], and costs
    the loop one failed attempt: it goes on from the next request. *)
Theorem page_without_script_is_a_failed_attempt :
  forall text : string,
    str_contains _NEXT_DATA_OPEN text = false
    \/ str_contains _NEXT_DATA_CLOSE text = false ->
    _extract_next_data json_loads (JStr text) = Raise ValueError
    /\ (forall fuel queue calls failed_attempts,
          failed_attempts <= max_attempts ->
          request calls = Ok (JStr text) ->
          loop (S fuel) queue calls failed_attempts
          = loop fuel queue (S calls) (failed_attempts + 1)).
Proof.
  intros text H.
  assert (Hnone : search_next_data text = None).
  { destruct H as [H | H]; [now apply search_needs_open |].
    destruct (search_next_data text) as [data |] eqn:Hs; [exfalso | reflexivity].
    apply search_sound in Hs as (pre & attrs & post & -> & _).
    apply (not_occurs _ _ H).
    exists (pre ++ _NEXT_DATA_OPEN ++ attrs ++ ">" ++ data)%string, post.
    now rewrite !append_assoc_s. }
  assert (Hraise : _extract_next_data json_loads (JStr text) = Raise ValueError).
  { unfold _extract_next_data. now rewrite Hnone. }
  split; [exact Hraise |].
  intros fuel queue calls failed_attempts Hle Hr.
  destruct (truthy (JStr text)) eqn:Ht.
  - apply (loop_extraction_failed _ _ _ _ _ _ _ _ _ _ _ _ (JStr text)); try assumption.
    unfold extract. now rewrite Hraise.
  - now apply (loop_no_content _ _ _ _ _ _ _ _ _ _ _ _ (JStr text)).
Qed.

(** X4.  From a snapshot that has the four keys, [_extract_skins] returns
    the list under [skins] as it is, and the empty list when [skinsInfo] has
    no [skins]. *)
Theorem extract_skins_returns_the_list :
  forall (data : json) (info : list (string * json)),
    reaches _SKINS_PATH data (JDict info) ->
    (forall l, lookup "skins" info = Some (JList l) -> _extract_skins data = Ok l)
    /\ (lookup "skins" info = None -> _extract_skins data = Ok []).
Proof.
  intros data info Hreach. rewrite (reaches_skins_info data info Hreach). unfold get.
  split; [intros l H | intros H]; now rewrite H.
Qed.

Lemma stops_raises data :
  stops_at_non_dict _SKINS_PATH data -> _extract_skins data = Raise TypeError.
Proof.
  unfold _extract_skins, _SKINS_PATH. cbn [stops_at_non_dict].
  destruct data as [| | | | | |kvs]; try reflexivity. cbn [py_getitem].
  destruct (lookup "props" kvs) as [props |]; [| contradiction]. cbn [bind].
  destruct props as [| | | | | |kvs1]; try reflexivity. cbn [py_getitem].
  destruct (lookup "pageProps" kvs1) as [page_props |]; [| contradiction]. cbn [bind].
  destruct page_props as [| | | | | |kvs2]; try reflexivity. cbn [py_getitem].
  destruct (lookup "botInitData" kvs2) as [bot_init |]; [| contradiction]. cbn [bind].
  destruct bot_init as [| | | | | |kvs3]; try reflexivity. cbn [py_getitem].
  destruct (lookup "skinsInfo" kvs3) as [skins_info |]; contradiction.
Qed.

Lemma reaches_non_dict_raises data v :
  reaches _SKINS_PATH data v -> (forall kvs, v <> JDict kvs) ->
  _extract_skins data = Raise AttributeError.
Proof.
  unfold _extract_skins, _SKINS_PATH. cbn [reaches].
  intros (k0 & v0 & -> & H0 & k1 & v1 & -> & H1 & k2 & v2 & -> & H2
          & k3 & v3 & -> & H3 & ->) Hnot.
  cbn [py_getitem bind]. rewrite H0. cbn [py_getitem bind]. rewrite H1.
  cbn [py_getitem bind]. rewrite H2. cbn [py_getitem bind]. rewrite H3.
  cbn [reraise_as bind].
  destruct v as [| | | | | |kvs]; try reflexivity. now elim (Hnot kvs).
Qed.

(** X5.  Where a key is missing [_extract_skins] raises [ValueError], but
    where a value on the way is not a dict it raises [TypeError], and where
    [skinsInfo] itself is not a dict, [AttributeError]; neither is caught by
    [parse], which ends with it at that request, with nothing put and the
    failure counter as it was. *)
Theorem non_dict_snapshot_escapes_parse :
  forall (data : json) (e : exn),
    (stops_at_non_dict _SKINS_PATH data /\ e = TypeError)
    \/ (exists v, reaches _SKINS_PATH data v /\ (forall kvs, v <> JDict kvs)
                  /\ e = AttributeError) ->
    _extract_skins data = Raise e
    /\ (forall fuel queue calls failed_attempts html,
          failed_attempts <= max_attempts ->
          request calls = Ok html -> truthy html = true ->
          _extract_next_data json_loads html = Ok data ->
          loop (S fuel) queue calls failed_attempts
          = Some (failed_with e queue (S calls) failed_attempts)).
Proof.
  intros data e H.
  assert (Hraise : _extract_skins data = Raise e /\ e <> ValueError).
  { destruct H as [[Hs ->] | (v & Hr & Hv & ->)].
    - split; [now apply stops_raises | discriminate].
    - split; [now apply (reaches_non_dict_raises data v) | discriminate]. }
  destruct Hraise as [Hraise Hne]. split; [exact Hraise |].
  intros fuel queue calls failed_attempts html Hle Hr Ht Hd.
  apply (loop_extraction_error _ _ _ _ _ _ _ _ _ _ _ _ html); try assumption.
  unfold extract. rewrite Hd. exact Hraise.
Qed.

End ExtractorFacts.

(* ===================================================================== *)
(** ** Further properties of the item transformer                         *)
(* ===================================================================== *)

Section TransformerMore.

Variable category : Type.
Variable category_of_value : json -> option category.
Variable patch_market_name : json -> json.
Variable py_str : json -> string.

Local Abbreviation create_items :=
  (_create_items category category_of_value patch_market_name py_str).
Local Abbreviation sibling :=
  (stack_sibling category category_of_value py_str).
Local Abbreviation fill :=
  (fill_pack category category_of_value patch_market_name py_str).
Local Abbreviation item := (CsmoneyItem category).
Local Abbreviation parent_fields :=
  (parent_fields category category_of_value patch_market_name py_str).
Local Abbreviation sibling_of := (sibling_of category py_str).
Local Abbreviation created_lists :=
  (created_lists category category_of_value patch_market_name py_str).

Lemma mapM_returns {A B : Type} (f : A -> result B) : forall l bs,
  mapM f l = Ok bs -> Forall2 (fun a b => f a = Ok b) l bs.
Proof.
  induction l as [|a l IH]; intros bs; cbn [mapM].
  - intros H. injection H as <-. constructor.
  - destruct (f a) as [b |] eqn:Hb; cbn [bind]; [| discriminate].
    destruct (mapM f l) as [bs' |]; cbn [bind]; [| discriminate].
    intros H. injection H as <-. constructor; [assumption | now apply IH].
Qed.

Lemma sibling_returned kvs first stack_item it :
  parent_fields kvs first ->
  sibling (JDict kvs) (name first) stack_item = Ok it ->
  sibling_of first stack_item it.
Proof.
  intros [_ Hprice _ Hnid (code & Hcode & Hcat) _ _ _].
  unfold stack_sibling. cbn [py_getitem bind]. rewrite Hprice. cbn [bind].
  destruct (py_getitem stack_item "id") as [id |] eqn:Hid; cbn [bind]; [| discriminate].
  rewrite Hnid, Hcode. cbn [bind]. unfold CsmoneyItemCategory. rewrite Hcat. cbn [bind].
  destruct (py_get stack_item "float") as [fl |] eqn:Hfl; cbn [bind]; [| discriminate].
  destruct (py_getitem stack_item "tradeLock") as [tl |] eqn:Htl; cbn [bind];
    [| discriminate].
  destruct (_csmoney_unix_to_datetime tl) as [u |] eqn:Hu; cbn [bind]; [| discriminate].
  intros H. injection H as <-. unfold sibling_of.
  cbn [name price name_id type_ overpay_float float_ unlock_timestamp asset_id].
  repeat split; try reflexivity; eauto.
Qed.

Lemma siblings_returned kvs first entries : forall rest,
  parent_fields kvs first ->
  mapM (sibling (JDict kvs) (name first)) entries = Ok rest ->
  Forall2 (sibling_of first) entries rest.
Proof.
  intros rest Hp H. apply mapM_returns in H.
  induction H as [|s it entries rest Hs _ IH]; constructor; [| exact IH].
  now apply (sibling_returned kvs).
Qed.

(** X6.  A record that has the fields of its own item but lacks one of
    [stackSize], [stackId] and [stackItems] gives exactly one item, its own;
    a [stackItems] without the other two keys is not looked at. *)
Theorem create_items_ungrouped :
  forall (kvs : list (string * json)) (first : item),
    parent_fields kvs first ->
    lookup "stackSize" kvs = None \/ lookup "stackId" kvs = None
    \/ lookup "stackItems" kvs = None ->
    create_items (JDict kvs) = Ok [first].
Proof.
  intros kvs first Hp H. rewrite (create_items_parent _ _ _ _ kvs first Hp).
  unfold py_and, py_contains. cbn [bind].
  destruct (lookup "stackSize" kvs); [| reflexivity].
  destruct (lookup "stackId" kvs); [| reflexivity].
  destruct (lookup "stackItems" kvs); [| reflexivity].
  destruct H as [H | [H | H]]; discriminate.
Qed.

(** X7.  Whenever [_create_items] returns for a record, the record either
    has no [fullName] and the list is empty, or the list starts with the
    item built from the record's own fields; that item is alone when the
    record is not grouped, and is followed by one item per entry of
    [stackItems], in order, when it is. *)
Theorem create_items_returns_only_this :
  forall (kvs : list (string * json)) (created : list item),
    create_items (JDict kvs) = Ok created ->
    (lookup "fullName" kvs = None /\ created = [])
    \/ (exists first rest,
          created = first :: rest
          /\ parent_fields kvs first
          /\ ((~ grouped kvs /\ rest = [])
              \/ (grouped kvs
                  /\ exists stack_items entries,
                       lookup "stackItems" kvs = Some stack_items
                       /\ py_iter stack_items = Ok entries
                       /\ Forall2 (sibling_of first) entries rest))).
Proof.
  intros kvs created H. unfold _create_items in H.
  cbn [py_contains py_getitem bind] in H.
  destruct (lookup "fullName" kvs) as [full_name |] eqn:Hfn; cbn [negb bind] in H;
    [right | left; split; [reflexivity | congruence]].
  rewrite !py_get_dict in H. cbn [bind] in H. fold (overpay_of kvs) in H.
  destruct (overpay_of kvs) as [o |] eqn:Ho; cbn [bind] in H; [| discriminate].
  destruct (lookup "price" kvs) as [p |] eqn:Hp; cbn [bind] in H; [| discriminate].
  destruct (lookup "assetId" kvs) as [a |] eqn:Ha; cbn [bind] in H; [| discriminate].
  destruct (lookup "nameId" kvs) as [i |] eqn:Hi; cbn [bind] in H; [| discriminate].
  destruct (lookup "type" kvs) as [code |] eqn:Hc; cbn [bind] in H; [| discriminate].
  unfold CsmoneyItemCategory in H.
  destruct (category_of_value code) as [t |] eqn:Ht; cbn [bind] in H; [| discriminate].
  destruct (_csmoney_unix_to_datetime (get kvs "tradeLock")) as [u |] eqn:Hu;
    cbn [bind] in H; [| discriminate].
  set (first := {| name := patch_market_name full_name; price := p;
                   asset_id := py_str a; name_id := i; type_ := t;
                   float_ := get kvs "float"; unlock_timestamp := u;
                   overpay_float := o |}) in *.
  assert (Hparent : parent_fields kvs first).
  { constructor; cbn; eauto. }
  unfold py_and in H. cbn [bind] in H. unfold grouped.
  destruct (lookup "stackSize" kvs) as [s1 |]; cbn [bind] in H.
  2:{ injection H as <-. exists first, [].
      split; [reflexivity | split; [exact Hparent |]].
      left. split; [| reflexivity]. intros (H1 & _). congruence. }
  destruct (lookup "stackId" kvs) as [s2 |]; cbn [bind] in H.
  2:{ injection H as <-. exists first, [].
      split; [reflexivity | split; [exact Hparent |]].
      left. split; [| reflexivity]. intros (_ & H2 & _). congruence. }
  destruct (lookup "stackItems" kvs) as [stack_items |]; cbn [bind] in H.
  2:{ injection H as <-. exists first, [].
      split; [reflexivity | split; [exact Hparent |]].
      left. split; [| reflexivity]. intros (_ & _ & H3). congruence. }
  destruct (py_iter stack_items) as [entries |] eqn:He; cbn [bind] in H; [| discriminate].
  destruct (mapM _ entries) as [rest |] eqn:Hm; cbn [bind] in H; [| discriminate].
  injection H as <-. exists first, rest. split; [reflexivity |]. split; [exact Hparent |].
  right. split; [repeat split; discriminate |].
  exists stack_items, entries. split; [reflexivity | split; [exact He |]].
  apply (siblings_returned kvs first entries rest Hparent). exact Hm.
Qed.


(** X9.  The items of a pack are the items of the records, list after
    list in the order of the records: [_process_items] fills the pack with
    their concatenation when every record gives a list, and stops at the
    exception of the first record that gives none. *)
Theorem fill_pack_concatenates :
  forall (records : list json) (pack_items : list item),
    fill records pack_items
    = (lists <- created_lists records ;; Ok (pack_items ++ List.concat lists)).
Proof.
  unfold created_lists. induction records as [|json_item records IH]; intros pack_items;
    cbn [fill_pack mapM bind List.concat].
  - now rewrite app_nil_r.
  - destruct (create_items json_item) as [created |]; cbn [bind]; [| reflexivity].
    rewrite IH. destruct (mapM _ records) as [lists |]; cbn [bind List.concat];
      [| reflexivity].
    now rewrite app_assoc.
Qed.

End TransformerMore.

(* ===================================================================== *)
(** ** Further properties of the retry loop                               *)
(* ===================================================================== *)

Section OrchestratorMore.

Variable json_loads : string -> result json.
Variable category : Type.
Variable category_of_value : json -> option category.
Variable patch_market_name : json -> json.
Variable py_str : json -> string.
Variable put_raises : CsmoneyItemPack category -> option exn.
Variable request : nat -> result json.
Variable max_attempts : Z.

Local Abbreviation fill :=
  (fill_pack category category_of_value patch_market_name py_str).
Local Abbreviation loop :=
  (parse_loop json_loads category category_of_value patch_market_name py_str
     put_raises request max_attempts).
Local Abbreviation run_parse :=
  (parse json_loads category category_of_value patch_market_name py_str
     put_raises request max_attempts).
Local Abbreviation exhausted := (after_loop category max_attempts).
Local Abbreviation failed_with := (raised category).
Local Abbreviation extract := (extract json_loads).
Local Abbreviation attempt_succeeds :=
  (attempt_succeeds json_loads category category_of_value patch_market_name py_str
     request).
Local Abbreviation soft_failure := (soft_failure json_loads request).

(** The requests and the failures of a run, counted from the state the
    loop starts in. *)
Lemma loop_accounting fuel : forall queue calls failed_attempts r,
  loop fuel queue calls failed_attempts = Some r ->
  failed_attempts <= failed r
  /\ failed r <= Z.max failed_attempts (max_attempts + 1)
  /\ Z.of_nat (requests r) - failed r
     = Z.of_nat calls - failed_attempts
       + (if failed r >? max_attempts then 0 else 1).
Proof.
  induction fuel as [|fuel IH]; intros queue calls failed_attempts r; cbn [parse_loop];
    destruct (Z.leb_spec failed_attempts max_attempts) as [Hle | Hgt];
    try discriminate;
    try (intros H; injection H as <-; cbn [failed requests after_loop];
         replace (failed_attempts >? max_attempts) with true
           by (symmetry; apply Z.gtb_lt; lia);
         lia).
  assert (Hstop : forall rr : run category,
             failed rr = failed_attempts -> requests rr = S calls ->
             failed_attempts <= failed rr
             /\ failed rr <= Z.max failed_attempts (max_attempts + 1)
             /\ Z.of_nat (requests rr) - failed rr
                = Z.of_nat calls - failed_attempts
                  + (if failed rr >? max_attempts then 0 else 1)).
  { intros rr -> ->.
    replace (failed_attempts >? max_attempts) with false
      by (symmetry; rewrite Z.gtb_ltb; apply Z.ltb_ge; lia).
    lia. }
  assert (Hnext : forall rr : run category,
             loop fuel queue (S calls) (failed_attempts + 1) = Some rr ->
             failed_attempts <= failed rr
             /\ failed rr <= Z.max failed_attempts (max_attempts + 1)
             /\ Z.of_nat (requests rr) - failed rr
                = Z.of_nat calls - failed_attempts
                  + (if failed rr >? max_attempts then 0 else 1)).
  { intros rr H. apply IH in H as (H1 & H2 & H3). lia. }
  destruct (request calls) as [html | e];
    [| intros H; injection H as <-; now apply Hstop].
  destruct (truthy html); cbn [negb]; [| apply Hnext].
  destruct (bind _ _) as [skins_data | e].
  - destruct (_process_items _ _ _ _ _ _ _) as [[u | e] queue'];
      intros H; injection H as <-; now apply Hstop.
  - destruct e; try (intros H; injection H as <-; now apply Hstop). apply Hnext.
Qed.

(** X10.  Every call of [parse] ends having made at most [max_attempts + 1]
    requests; it made as many requests as it counted failures when the
    attempts ran out, and one more when it ended on a page or on an
    exception that it let through. *)
Theorem parse_counts_its_requests :
  exists r : run category,
    run_parse = Some r
    /\ (requests r <= Z.to_nat (max_attempts + 1))%nat
    /\ 0 <= failed r <= Z.max 0 (max_attempts + 1)
    /\ Z.of_nat (requests r)
       = failed r + (if failed r >? max_attempts then 0 else 1).
Proof.
  destruct (loop_runs json_loads category category_of_value patch_market_name py_str
              put_raises request max_attempts (Z.to_nat (max_attempts + 1)) [] 0 0)
    as (r & Hrun & _); [lia |].
  exists r. split; [exact Hrun |].
  apply loop_accounting in Hrun as (H1 & H2 & H3).
  destruct (failed r >? max_attempts) eqn:Hx.
  - apply Z.gtb_lt in Hx. lia.
  - rewrite Z.gtb_ltb in Hx. apply Z.ltb_ge in Hx. lia.
Qed.

(** X11.  With a negative [max_attempts], [parse] raises
    [MaxAttemptsReachedError] without making a request. *)
Theorem parse_negative_bound :
  max_attempts < 0 ->
  run_parse = Some {| outcome := Raise MaxAttemptsReachedError; puts := [];
                      requests := 0; failed := 0 |}.
Proof.
  intros H. unfold parse. rewrite loop_exhausted by lia. unfold after_loop.
  now replace (0 >? max_attempts) with true by (symmetry; apply Z.gtb_lt; lia).
Qed.

(** A row of requests that bring nothing is gone through one by one. *)
Lemma loop_skips_soft_failures n : forall fuel queue calls failed_attempts,
  failed_attempts + Z.of_nat n - 1 <= max_attempts ->
  (forall k, (calls <= k < calls + n)%nat -> soft_failure k) ->
  loop (n + fuel) queue calls failed_attempts
  = loop fuel queue (calls + n) (failed_attempts + Z.of_nat n).
Proof.
  induction n as [|n IH]; intros fuel queue calls failed_attempts Hle Hsoft.
  - cbn [Nat.add]. now rewrite Nat.add_0_r, Z.add_0_r.
  - destruct (Hsoft calls) as (html & Hr & Hwhy); [lia |].
    change (S n + fuel)%nat with (S (n + fuel)).
    assert (Hstep : loop (S (n + fuel)) queue calls failed_attempts
                    = loop (n + fuel) queue (S calls) (failed_attempts + 1)).
    { destruct (truthy html) eqn:Ht.
      - destruct Hwhy as [Hf | He]; [discriminate |].
        apply (loop_extraction_failed _ _ _ _ _ _ _ _ _ _ _ _ html);
          try assumption; lia.
      - apply (loop_no_content _ _ _ _ _ _ _ _ _ _ _ _ html); try assumption; lia. }
    rewrite Hstep, IH.
    + f_equal; lia.
    + lia.
    + intros k Hk. apply Hsoft. lia.
Qed.

(** X12.  When each of the first [max_attempts + 1] requests brings no
    content or a page from which nothing can be extracted, [parse] makes
    exactly these requests, puts nothing and raises
    [MaxAttemptsReachedError]. *)
Theorem parse_gives_up_after_the_bound :
  0 <= max_attempts ->
  (forall k, (k <= Z.to_nat max_attempts)%nat -> soft_failure k) ->
  run_parse = Some {| outcome := Raise MaxAttemptsReachedError; puts := [];
                      requests := Z.to_nat (max_attempts + 1);
                      failed := max_attempts + 1 |}.
Proof.
  intros Hmax Hsoft. unfold parse.
  rewrite <- (Nat.add_0_r (Z.to_nat (max_attempts + 1))) at 1.
  rewrite loop_skips_soft_failures; [| lia | intros k Hk; apply Hsoft; lia].
  rewrite loop_exhausted by lia. unfold after_loop. cbn [Nat.add].
  replace (0 + Z.of_nat (Z.to_nat (max_attempts + 1))) with (max_attempts + 1) by lia.
  now replace (max_attempts + 1 >? max_attempts) with true
    by (symmetry; apply Z.gtb_lt; lia).
Qed.

(** X13.  When the first [n] requests bring no content or a page from
    which nothing can be extracted, [n] being at most [max_attempts], and
    the next one brings a page from which a pack is built, [parse] puts that
    pack, once, after [n + 1] requests, and ends as the [put] ends. *)
Theorem parse_succeeds_after_failures :
  forall (n : nat) (pack : CsmoneyItemPack category),
    Z.of_nat n <= max_attempts ->
    (forall k, (k < n)%nat -> soft_failure k) ->
    attempt_succeeds n pack ->
    run_parse = Some {| outcome := match put_raises pack with
                                   | Some e => Raise e
                                   | None => Ok tt
                                   end;
                        puts := [pack]; requests := S n; failed := Z.of_nat n |}.
Proof.
  intros n pack Hn Hsoft (html & skins_data & Hr & Ht & He & Hf). unfold parse.
  replace (Z.to_nat (max_attempts + 1))
    with (n + S (Z.to_nat (max_attempts + 1) - S n))%nat by lia.
  rewrite loop_skips_soft_failures; [| lia | intros k Hk; apply Hsoft; lia].
  cbn [Nat.add Z.add].
  rewrite (loop_put _ _ _ _ _ _ _ _ _ _ _ _ html skins_data (items pack));
    try assumption; try lia.
  now destruct pack.
Qed.

(** X14.  When, after [n] such requests, the next request raises, or its
    page makes the extraction raise anything but [ValueError], [parse] ends
    with that exception at once: nothing is put, and no request follows. *)
Theorem parse_lets_other_exceptions_through :
  forall (n : nat) (e : exn),
    Z.of_nat n <= max_attempts ->
    (forall k, (k < n)%nat -> soft_failure k) ->
    request n = Raise e
    \/ (exists html, request n = Ok html /\ truthy html = true
                     /\ extract html = Raise e /\ e <> ValueError) ->
    run_parse = Some {| outcome := Raise e; puts := []; requests := S n;
                        failed := Z.of_nat n |}.
Proof.
  intros n e Hn Hsoft Hwhy. unfold parse.
  replace (Z.to_nat (max_attempts + 1))
    with (n + S (Z.to_nat (max_attempts + 1) - S n))%nat by lia.
  rewrite loop_skips_soft_failures; [| lia | intros k Hk; apply Hsoft; lia].
  cbn [Nat.add Z.add]. destruct Hwhy as [Hr | (html & Hr & Ht & He & Hne)].
  - now rewrite (loop_request_error _ _ _ _ _ _ _ _ _ _ _ _ e) by (assumption || lia).
  - now rewrite (loop_extraction_error _ _ _ _ _ _ _ _ _ _ _ _ html e)
      by (assumption || lia).
Qed.

(** X15.  A page whose snapshot has the four keys but no item under
    [skins] (no [skins], one that is not a list, or an empty list) is a
    success all the same: the loop puts one pack, with no item, and ends. *)
Theorem page_without_items_puts_an_empty_pack :
  forall fuel queue calls failed_attempts html data info,
    failed_attempts <= max_attempts ->
    request calls = Ok html -> truthy html = true ->
    _extract_next_data json_loads html = Ok data ->
    reaches _SKINS_PATH data (JDict info) ->
    (forall l, get info "skins" = JList l -> l = []) ->
    loop (S fuel) queue calls failed_attempts
    = Some {| outcome := match put_raises {| items := [] |} with
                         | Some e => Raise e
                         | None => Ok tt
                         end;
              puts := queue ++ [{| items := [] |}];
              requests := S calls; failed := failed_attempts |}.
Proof.
  intros fuel queue calls failed_attempts html data info Hle Hr Ht Hd Hreach Hnone.
  apply (loop_put _ _ _ _ _ _ _ _ _ _ _ _ html []); try assumption; [| reflexivity].
  unfold extract. rewrite Hd. cbn [bind]. rewrite (reaches_skins_info data info Hreach).
  destruct (get info "skins") as [| | | | |l|]; try reflexivity.
  now rewrite (Hnone l eq_refl).
Qed.

End OrchestratorMore.

(* ===================================================================== *)
(** ** The fetcher and the classifier together                            *)
(* ===================================================================== *)

Lemma challenge_iff_marked html :
  _is_cloudflare_challenge html = true <-> marked html.
Proof.
  unfold marked, _is_cloudflare_challenge. rewrite existsb_exists. split.
  - intros (keyword & Hin & Hc). apply str_contains_spec, occurs_lower in Hc.
    destruct Hc as (v & Hv & Hocc). now exists keyword, v.
  - intros (keyword & v & Hin & Hv & Hocc). exists keyword. split; [assumption |].
    apply str_contains_spec, occurs_lower. now exists v.
Qed.

(** X16.  Of the bodies [_request] reads, the loop takes for content
    exactly those that are not empty and in which no keyword of a challenge
    occurs in any letter casing, and it takes them unchanged; every other
    body counts as no content. *)
Theorem request_passes_only_unmarked_bodies :
  forall text : string,
    exists v,
      _request (Body text) = Ok v
      /\ (truthy v = true <-> text <> "" /\ ~ marked text)
      /\ (truthy v = true -> v = JStr text).
Proof.
  intros text. unfold _request.
  destruct (_is_cloudflare_challenge text) eqn:Hc.
  - exists JNull. split; [reflexivity |]. split; [| discriminate].
    split; [discriminate |]. intros [_ Hno]. elim Hno. now apply challenge_iff_marked.
  - exists (JStr text). split; [reflexivity |]. split; [| reflexivity].
    cbn [truthy]. rewrite negb_true_iff, String.eqb_neq. split.
    + intros Hne. split; [exact Hne |]. intros Hm. apply challenge_iff_marked in Hm.
      congruence.
    + now intros [Hne _].
Qed.

(* ===================================================================== *)
(** ** The RabbitMQ connector                                             *)
(* ===================================================================== *)

Section ConnectorFacts.

Variable exc : Type.
Variable connection : Type.
Variable caught : exc -> bool.
Variable client_connect : nat -> Z -> exc + connection.
Variable max_retries : Z.

Local Abbreviation connect_loop :=
  (fun port : Z =>
     Rabbitmq.connect_loop exc connection caught (inr port) client_connect max_retries).
Local Abbreviation connect :=
  (fun int_port : exc + Z =>
     Rabbitmq.connect exc connection caught int_port client_connect max_retries).

(** [refused k port]: the [k]-th client fails to connect with an exception
    that [connect] catches. *)
Local Abbreviation refused :=
  (fun (k : nat) (port : Z) =>
     exists e, client_connect k port = inl e /\ caught e = true).

Lemma connect_loop_ends port fuel : forall attempt calls slept,
  (Z.to_nat (max_retries - attempt) < fuel)%nat ->
  exists r n,
    connect_loop port fuel attempt calls slept = Some r
    /\ Rabbitmq.connects r = (calls + n + 1)%nat
    /\ Rabbitmq.sleeps r = (slept + n)%nat
    /\ (n = 0%nat \/ attempt + Z.of_nat n <= max_retries)
    /\ (forall k, (k < n)%nat -> refused (calls + k)%nat port)
    /\ Rabbitmq.ended r = client_connect (calls + n)%nat port
    /\ (forall e, Rabbitmq.ended r = inl e -> caught e = true ->
                  max_retries < attempt + Z.of_nat n + 1).
Proof.
  induction fuel as [|fuel IH]; intros attempt calls slept Hfuel; [lia |].
  cbn [Rabbitmq.connect_loop].
  destruct (client_connect calls port) as [e | c] eqn:Hc.
  - destruct (caught e) eqn:He.
    + destruct (Z.gtb_spec (attempt + 1) max_retries) as [Hgt | Hle].
      * eexists. exists 0%nat. split; [reflexivity |]. cbn.
        rewrite !Nat.add_0_r. repeat split; try lia; auto.
      * destruct (IH (attempt + 1) (S calls) (S slept))
          as (r & n & Hrun & Hcon & Hsl & Hn & Hk & Hend & Hlast); [lia |].
        exists r, (S n). split; [exact Hrun |].
        split; [lia |]. split; [lia |]. split; [right; lia |].
        split; [| split].
        -- intros k Hlt. destruct k as [|k].
           ++ rewrite Nat.add_0_r. now exists e.
           ++ replace (calls + S k)%nat with (S calls + k)%nat by lia. apply Hk. lia.
        -- rewrite Hend. f_equal. lia.
        -- intros e' He' Hc'. specialize (Hlast e' He' Hc'). lia.
    + eexists. exists 0%nat. split; [reflexivity |]. cbn.
      rewrite !Nat.add_0_r. repeat split; try lia; auto. intros e' He'. congruence.
  - eexists. exists 0%nat. split; [reflexivity |]. cbn.
    rewrite !Nat.add_0_r. repeat split; try lia; auto. discriminate.
Qed.

Lemma connect_loop_skips port n : forall fuel attempt calls slept,
  attempt + Z.of_nat n <= max_retries ->
  (forall k, (calls <= k < calls + n)%nat -> refused k port) ->
  connect_loop port (n + fuel)%nat attempt calls slept
  = connect_loop port fuel (attempt + Z.of_nat n) (calls + n)%nat (slept + n)%nat.
Proof.
  induction n as [|n IH]; intros fuel attempt calls slept Hle Hk.
  - cbn [Nat.add]. now rewrite !Nat.add_0_r, Z.add_0_r.
  - destruct (Hk calls) as (e & Hc & He); [lia |].
    change (S n + fuel)%nat with (S (n + fuel)). cbn [Rabbitmq.connect_loop].
    rewrite Hc, He.
    destruct (Z.gtb_spec (attempt + 1) max_retries) as [Hgt | _]; [lia |].
    rewrite (IH fuel (attempt + 1) (S calls) (S slept)); [f_equal; lia | lia |].
    intros k Hlt. apply Hk. lia.
Qed.

(** X17.  [connect] always ends, after at most [max_retries + 1] clients
    (one, when [max_retries] is negative); it sleeps once between two
    clients and never after the last; and when [int(port)] raises, it
    raises that without building a client. *)
Theorem connect_is_bounded :
  forall int_port : exc + Z,
    exists r,
      connect int_port = Some r
      /\ (Rabbitmq.connects r <= S (Z.to_nat max_retries))%nat
      /\ Rabbitmq.sleeps r = pred (Rabbitmq.connects r)
      /\ (forall e, int_port = inl e ->
                    Rabbitmq.ended r = inl e /\ Rabbitmq.connects r = 0%nat).
Proof.
  intros [e | port]; unfold Rabbitmq.connect.
  - eexists. cbn [Rabbitmq.connect_loop]. split; [reflexivity |]. cbn.
    split; [lia |]. split; [reflexivity |]. intros e' H. now injection H as <-.
  - destruct (connect_loop_ends port (S (Z.to_nat max_retries)) 0 0 0)
      as (r & n & Hrun & Hcon & Hsl & Hn & _); [lia |].
    exists r. split; [exact Hrun |]. repeat split; try lia; discriminate.
Qed.

(** X18.  What [connect] returns or raises is what its last client gave;
    every client before it was refused with an exception that [connect]
    catches; and it raises such an exception itself only when more than
    [max_retries] clients have been refused. *)
Theorem connect_ends_as_its_last_client :
  forall port : Z,
    exists r,
      connect (inr port) = Some r
      /\ (1 <= Rabbitmq.connects r)%nat
      /\ Rabbitmq.ended r = client_connect (pred (Rabbitmq.connects r)) port
      /\ (forall k, (k < pred (Rabbitmq.connects r))%nat -> refused k port)
      /\ (forall e, Rabbitmq.ended r = inl e -> caught e = true ->
                    max_retries < Z.of_nat (Rabbitmq.connects r)).
Proof.
  intros port. unfold Rabbitmq.connect.
  destruct (connect_loop_ends port (S (Z.to_nat max_retries)) 0 0 0)
    as (r & n & Hrun & Hcon & Hsl & Hn & Hk & Hend & Hlast); [lia |].
  exists r. split; [exact Hrun |]. cbn [Nat.add] in *.
  replace (pred (Rabbitmq.connects r)) with n by lia.
  repeat split; try lia; auto.
  intros e He Hc. specialize (Hlast e He Hc). lia.
Qed.

(** X19.  When the first [n] clients are refused, [n] being at most
    [max_retries], and the next one connects, or fails with an exception
    that [connect] does not catch, [connect] ends with what that client
    gave, after [n + 1] clients and [n] sleeps. *)
Theorem connect_ends_at_first_decisive_client :
  forall (port : Z) (n : nat) (out : exc + connection),
    Z.of_nat n <= max_retries ->
    (forall k, (k < n)%nat -> refused k port) ->
    client_connect n port = out ->
    match out with inl e => caught e = false | inr _ => True end ->
    connect (inr port)
    = Some {| Rabbitmq.ended := out; Rabbitmq.connects := S n;
              Rabbitmq.sleeps := n |}.
Proof.
  intros port n out Hn Hk Hout Hkind. unfold Rabbitmq.connect.
  replace (S (Z.to_nat max_retries)) with (n + S (Z.to_nat max_retries - n))%nat by lia.
  rewrite (connect_loop_skips port n _ 0 0%nat 0%nat);
    [| lia | intros k Hlt; apply Hk; lia].
  cbn [Nat.add Rabbitmq.connect_loop]. rewrite Hout.
  destruct out as [e | c]; [now rewrite Hkind | reflexivity].
Qed.

(** X20.  When the first [max_retries + 1] clients are all refused,
    [connect] raises the exception of the last of them, after
    [max_retries] sleeps. *)
Theorem connect_gives_up_with_the_last_exception :
  forall port : Z,
    0 <= max_retries ->
    (forall k, (k <= Z.to_nat max_retries)%nat -> refused k port) ->
    exists e,
      client_connect (Z.to_nat max_retries) port = inl e
      /\ connect (inr port)
         = Some {| Rabbitmq.ended := inl e;
                   Rabbitmq.connects := S (Z.to_nat max_retries);
                   Rabbitmq.sleeps := Z.to_nat max_retries |}.
Proof.
  intros port Hmax Hk.
  destruct (Hk (Z.to_nat max_retries)) as (e & Hc & He); [lia |].
  exists e. split; [exact Hc |]. unfold Rabbitmq.connect.
  replace (S (Z.to_nat max_retries)) with (Z.to_nat max_retries + 1)%nat at 1 by lia.
  rewrite (connect_loop_skips port (Z.to_nat max_retries) _ 0 0%nat 0%nat);
    [| lia | intros k Hlt; apply Hk; lia].
  cbn [Nat.add Rabbitmq.connect_loop]. rewrite Hc, He.
  destruct (Z.gtb_spec (0 + Z.of_nat (Z.to_nat max_retries) + 1) max_retries)
    as [_ | Hle]; [reflexivity | lia].
Qed.

End ConnectorFacts.

(* ===================================================================== *)
(** ** The further properties at sample inputs                            *)
(* ===================================================================== *)

Lemma serve_nothing k : Sample.serve [] k = Ok JNull.
Proof. unfold Sample.serve. now destruct k. Defined.

Lemma redline_parent_fields :
  sample_parent_fields
    [ ("fullName", JStr "AK-47 | Redline (Field-Tested)");
      ("price", JFloat 12.34); ("assetId", JInt 123);
      ("nameId", JInt 456); ("type", JInt 3) ]
    Sample.redline_item.
Proof.
  constructor; try reflexivity;
    eexists; (split; [reflexivity | reflexivity]).
Defined.

Lemma payload_reaches :
  reaches _SKINS_PATH Sample.payload (JDict [("skins", JList [Sample.redline])]).
Proof.
  do 4 (eexists; eexists; split; [reflexivity | split; [reflexivity |]]). reflexivity.
Defined.

Lemma no_items_reaches :
  reaches _SKINS_PATH (Sample.page_of JNull) (JDict [("skins", JNull)]).
Proof.
  do 4 (eexists; eexists; split; [reflexivity | split; [reflexivity |]]). reflexivity.
Defined.

(** The page of the test suite, through X2. *)
Lemma extract_next_data_of_embedded_witness :
  _extract_next_data Sample.json_loads (JStr (Sample.html_of "{redline}"))
  = Ok Sample.payload.
Proof.
  exact (extract_next_data_of_embedded Sample.json_loads "<html>" "" "{redline}"
           "</html>" eq_refl eq_refl eq_refl).
Defined.

(** A page without a script, then the page of the test suite, through X3. *)
Lemma page_without_script_witness :
  _extract_next_data Sample.json_loads (JStr "<html><body>ok</body></html>")
  = Raise ValueError
  /\ Sample.run_parse
       (Sample.serve [JStr "<html><body>ok</body></html>";
                      JStr (Sample.html_of "{redline}")]) 1
     = Some {| outcome := Ok tt; puts := [{| items := [Sample.redline_item] |}];
               requests := 2; failed := 1 |}.
Proof.
  destruct (page_without_script_is_a_failed_attempt Sample.json_loads Sample.category
              Sample.category_of_value Sample.patch_market_name Sample.py_str
              Sample.put_raises
              (Sample.serve [JStr "<html><body>ok</body></html>";
                             JStr (Sample.html_of "{redline}")]) 1
              "<html><body>ok</body></html>" (or_introl eq_refl))
    as (Hraise & Hloop).
  split; [exact Hraise |].
  unfold Sample.run_parse, parse. change (Z.to_nat (1 + 1)) with 2%nat.
  rewrite (Hloop 1%nat [] 0%nat 0); [reflexivity | discriminate | reflexivity].
Defined.

(** The snapshot of the test suite, through X4. *)
Lemma extract_skins_returns_the_list_witness :
  _extract_skins Sample.payload = Ok [Sample.redline].
Proof.
  exact (proj1 (extract_skins_returns_the_list Sample.payload
                  [("skins", JList [Sample.redline])] payload_reaches)
           [Sample.redline] eq_refl).
Defined.

(** A page whose snapshot is a JSON array, through X5. *)
Lemma non_dict_snapshot_witness :
  _extract_skins (JList []) = Raise TypeError
  /\ Sample.run_parse_more (Sample.serve [JStr (Sample.html_of "[]")]) 5
     = Some {| outcome := Raise TypeError; puts := []; requests := 1; failed := 0 |}.
Proof.
  destruct (non_dict_snapshot_escapes_parse Sample.json_loads_more Sample.category
              Sample.category_of_value Sample.patch_market_name Sample.py_str
              Sample.put_raises (Sample.serve [JStr (Sample.html_of "[]")]) 5
              (JList []) TypeError (or_introl (conj I eq_refl)))
    as (Hraise & Hloop).
  split; [exact Hraise |].
  apply (Hloop 5%nat [] 0%nat 0 (JStr (Sample.html_of "[]")));
    [discriminate | reflexivity | reflexivity | reflexivity].
Defined.

(** The record of the test suite, which has no stack key, through X6. *)
Lemma create_items_ungrouped_witness :
  Sample.create_items Sample.redline = Ok [Sample.redline_item].
Proof.
  exact (create_items_ungrouped Sample.category Sample.category_of_value
           Sample.patch_market_name Sample.py_str _ Sample.redline_item
           redline_parent_fields (or_introl eq_refl)).
Defined.

(** The grouped record of the test suite, through X7. *)
Lemma create_items_returns_only_this_witness :
  exists first rest,
    [Sample.bayonet_item; Sample.bayonet_entry_item] = first :: rest
    /\ sample_parent_fields Sample.bayonet_fields first
    /\ grouped Sample.bayonet_fields
    /\ Forall2 (sibling_of Sample.category Sample.py_str first)
         [Sample.bayonet_entry] rest.
Proof.
  destruct (create_items_returns_only_this Sample.category Sample.category_of_value
              Sample.patch_market_name Sample.py_str Sample.bayonet_fields
              [Sample.bayonet_item; Sample.bayonet_entry_item] eq_refl)
    as [[Hnone _] | (first & rest & Hc & Hp & [[Hng _] | (Hg & si & en & Hs & Hi & Hf)])].
  - discriminate Hnone.
  - elim Hng. repeat split; discriminate.
  - exists first, rest. cbn in Hs. injection Hs as <-. cbn in Hi. injection Hi as <-.
    split; [exact Hc | split; [exact Hp | split; [exact Hg | exact Hf]]].
Defined.

(** A bound of -1, through X11. *)
Lemma parse_negative_bound_witness :
  Sample.run_parse (Sample.serve [JStr (Sample.html_of "{redline}")]) (-1)
  = Some {| outcome := Raise MaxAttemptsReachedError; puts := [];
            requests := 0; failed := 0 |}.
Proof.
  exact (parse_negative_bound Sample.json_loads Sample.category Sample.category_of_value
           Sample.patch_market_name Sample.py_str Sample.put_raises
           (Sample.serve [JStr (Sample.html_of "{redline}")]) (-1) eq_refl).
Defined.

(** Three empty answers with a bound of 2, through X12. *)
Lemma parse_gives_up_witness :
  Sample.run_parse (Sample.serve []) 2
  = Some {| outcome := Raise MaxAttemptsReachedError; puts := [];
            requests := 3; failed := 3 |}.
Proof.
  apply (parse_gives_up_after_the_bound Sample.json_loads Sample.category
           Sample.category_of_value Sample.patch_market_name Sample.py_str
           Sample.put_raises (Sample.serve []) 2).
  - discriminate.
  - intros k _. exists JNull. split; [apply serve_nothing | now left].
Defined.

Lemma two_soft_failures (third : json) :
  forall k, (k < 2)%nat ->
    soft_failure Sample.json_loads
      (Sample.serve [JNull; JStr (Sample.html_of "{no botInitData}"); third]) k.
Proof.
  intros [|[|k]] Hk.
  - exists JNull. split; [reflexivity | now left].
  - exists (JStr (Sample.html_of "{no botInitData}")).
    split; [reflexivity | now right].
  - exfalso. apply (Nat.nlt_0_r k). now do 2 apply Nat.succ_lt_mono.
Defined.

(** An empty answer, a page without [botInitData], then the page of the
    test suite, through X13. *)
Lemma parse_succeeds_after_failures_witness :
  Sample.run_parse
    (Sample.serve [JNull; JStr (Sample.html_of "{no botInitData}");
                   JStr (Sample.html_of "{redline}")]) 300
  = Some {| outcome := Ok tt; puts := [{| items := [Sample.redline_item] |}];
            requests := 3; failed := 2 |}.
Proof.
  apply (parse_succeeds_after_failures Sample.json_loads Sample.category
           Sample.category_of_value Sample.patch_market_name Sample.py_str
           Sample.put_raises
           (Sample.serve [JNull; JStr (Sample.html_of "{no botInitData}");
                          JStr (Sample.html_of "{redline}")]) 300
           2%nat {| items := [Sample.redline_item] |}).
  - discriminate.
  - apply two_soft_failures.
  - exists (JStr (Sample.html_of "{redline}")), [Sample.redline]. now repeat split.
Defined.

(** The same two answers, then a decoded snapshot in place of a page,
    through X14. *)
Lemma parse_lets_other_exceptions_through_witness :
  Sample.run_parse
    (Sample.serve [JNull; JStr (Sample.html_of "{no botInitData}"); Sample.payload]) 300
  = Some {| outcome := Raise TypeError; puts := []; requests := 3; failed := 2 |}.
Proof.
  apply (parse_lets_other_exceptions_through Sample.json_loads Sample.category
           Sample.category_of_value Sample.patch_market_name Sample.py_str
           Sample.put_raises
           (Sample.serve [JNull; JStr (Sample.html_of "{no botInitData}");
                          Sample.payload]) 300 2%nat TypeError).
  - discriminate.
  - apply two_soft_failures.
  - right. exists Sample.payload. repeat split. discriminate.
Defined.

(** A page whose [skins] is [null], through X15. *)
Lemma page_without_items_witness :
  Sample.run_parse_more (Sample.serve [JStr (Sample.html_of "{no items}")]) 0
  = Some {| outcome := Ok tt; puts := [{| items := [] |}];
            requests := 1; failed := 0 |}.
Proof.
  apply (page_without_items_puts_an_empty_pack Sample.json_loads_more Sample.category
           Sample.category_of_value Sample.patch_market_name Sample.py_str
           Sample.put_raises (Sample.serve [JStr (Sample.html_of "{no items}")]) 0
           0%nat [] 0%nat 0 (JStr (Sample.html_of "{no items}"))
           (Sample.page_of JNull) [("skins", JNull)]).
  - discriminate.
  - reflexivity.
  - reflexivity.
  - reflexivity.
  - exact no_items_reaches.
  - discriminate.
Defined.

(** Two refusals, then a connection, with five retries, through X19. *)
Lemma connect_after_two_refusals_witness :
  Sample.run_connect 2 5
  = Some {| Rabbitmq.ended := inr 2%nat; Rabbitmq.connects := 3;
            Rabbitmq.sleeps := 2 |}.
Proof.
  apply (connect_ends_at_first_decisive_client Sample.broker_exc nat
           Sample.broker_caught (Sample.broker 2) 5 5672 2%nat (inr 2%nat)).
  - discriminate.
  - intros [|[|k]] Hk; [now exists Sample.ConnectionRefused
                       | now exists Sample.ConnectionRefused |].
    exfalso. apply (Nat.nlt_0_r k). now do 2 apply Nat.succ_lt_mono.
  - reflexivity.
  - exact I.
Defined.

(** A broker that refuses every client, with five retries, through X20. *)
Lemma connect_gives_up_witness :
  exists e,
    Sample.broker 10 (Z.to_nat 5) 5672 = inl e
    /\ Sample.run_connect 10 5
       = Some {| Rabbitmq.ended := inl e; Rabbitmq.connects := S (Z.to_nat 5);
                 Rabbitmq.sleeps := Z.to_nat 5 |}.
Proof.
  apply (connect_gives_up_with_the_last_exception Sample.broker_exc nat
           Sample.broker_caught (Sample.broker 10) 5 5672).
  - discriminate.
  - intros k Hk. exists Sample.ConnectionRefused. split; [| reflexivity].
    unfold Sample.broker.
    now replace (Nat.ltb k 10) with true by (symmetry; apply Nat.ltb_lt; lia).
Defined.
